(** * Partition chart canvas renderer: render / pick controller

    Shallow embedding of
    [src/chart_types/partition_chart/renderer/canvas/partition.tsx]
    (class [PartitionComponent], [DEFAULT_PROPS], [mapStateToProps]).

    JavaScript numbers are IEEE-754 binary64 values and are modelled by the
    primitive floats of the kernel; objects whose shape is fixed by a
    TypeScript interface are records, the render configuration (which the code
    copies with an object spread) is a finite map from property names to
    values.  The component is a mutable object that talks to the DOM, to the
    drawing routine and to the store: its methods are programs of a small
    state-and-trace monad, the trace listing the calls that leave the
    component in the order in which they are made. *)

From Stdlib Require Import Floats.PrimFloat.
From stdpp Require Import gmap strings list.

#[local] Set Warnings "-register-all".

Open Scope float_scope.
Open Scope stdpp_scope.

(** ** Numbers *)

Abbreviation number := float.

(** [a === b] on two numbers: IEEE equality ([0 === -0], [NaN !== NaN]). *)
Definition strict_equals_number (a b : number) : bool := PrimFloat.eqb a b.

(** [a === 0]. *)
Definition is_zero (a : number) : bool := strict_equals_number a 0.

(** ** Data model *)

(** Modelled from the spec: [Dimensions] is imported from [utils/dimensions];
    the spec gives it as [{width, height, left, top}] in logical pixels.  The
    last two fields are prefixed, [left] and [top] being taken. *)
Record Dimensions := mkDimensions {
  width : number;
  height : number;
  dim_left : number;
  dim_top : number
}.

(** Modelled from the spec: the point type of [diskCenter] (declared in the
    layout types), "the logical-pixel offset of the shape tree's origin". *)
Record PointObject := mkPoint { point_x : number; point_y : number }.

(** Modelled from the spec: the values a property of the render configuration
    (or of another view-model field this file never reads) can hold. *)
Inductive JsValue :=
| JsNull
| JsBoolean (b : bool)
| JsNumber (n : number)
| JsString (s : string)
| JsObject (fields : list (string * JsValue)).

(** Modelled from the spec: the key of a child of a hierarchy node, also the
    type of a shape's [dataName]; the layout's primitive values. *)
Inductive PrimitiveValue :=
| PvString (s : string)
| PvNumber (n : number)
| PvNull.

(** [a === b] on primitive values. *)
Definition strict_equals (a b : PrimitiveValue) : bool :=
  match a, b with
  | PvString s, PvString t => bool_decide (s = t)
  | PvNumber m, PvNumber n => strict_equals_number m n
  | PvNull, PvNull => true
  | _, _ => false
  end.

(** Modelled from the spec: a hierarchy node, with "[children], an ordered
    sequence of [[key, subtree]] pairs", the subtree carrying under
    [INPUT_KEY] the original data-row indices, when it has them.  Row indices
    are positions in the data array, hence natural numbers. *)
Inductive ArrayNode := mkArrayNode {
  inputIndex : option (list N);
  children : list (PrimitiveValue * ArrayNode)
}.

(** Modelled from the spec: one picked shape, with its [parent] node and its
    [dataName]. *)
Record QuadViewModel := mkQuad {
  parent : ArrayNode;
  dataName : PrimitiveValue
}.

(** Modelled from the spec: the geometry snapshot, holding [config] (a plain
    object, with the declared [width] and [height] among its properties),
    [diskCenter], the spatial query [pickQuads] and the fields this file
    passes on without reading them. *)
Record ShapeViewModel := mkShapeViewModel {
  config : gmap string JsValue;
  diskCenter : PointObject;
  pickQuads : number → number → list QuadViewModel;
  otherFields : gmap string JsValue
}.

(** The three state props of [ReactiveChartStateProps]; the dispatch prop
    [onChartRendered] is a call to the store, see [Call] below. *)
Record PartitionProps := mkProps {
  initialized : bool;
  geometries : ShapeViewModel;
  chartContainerDimensions : Dimensions
}.

(** *** The DOM as the component sees it *)

(** A 2d drawing context, known by the canvas it draws on. *)
Record CanvasRenderingContext2D := mkContext { context_of : N }.

(** What [getBoundingClientRect()] answers (viewport coordinates). *)
Record DOMRect := mkRect {
  rect_left : number;
  rect_top : number;
  rect_width : number;
  rect_height : number
}.

(** A mounted [<canvas>]: the answers of its two methods that are called. *)
Record HTMLCanvasElement := mkCanvas {
  canvas_id : N;
  getContext_2d : option CanvasRenderingContext2D;
  getBoundingClientRect : DOMRect
}.

(** The two fields of a mouse event that are read. *)
Record MouseEvent := mkMouseEvent { clientX : number; clientY : number }.

(** What [render()] hands to React when it does not return [null]: the
    [<canvas>] attributes and style.  The [ref] is the component's
    [canvasRef] and [onMouseMove] its [handleMouseMove]; React's use of them
    is the [AttachRef] and [MouseMove] actions below. *)
Record CanvasProps := mkCanvasProps {
  className : string;
  attr_width : number;
  attr_height : number;
  style_width : number;
  style_height : number
}.

(** *** The component *)

Record PartitionComponent := mkComponent {
  props : PartitionProps;
  canvasRef : option HTMLCanvasElement;
  ctx : option CanvasRenderingContext2D;
  devicePixelRatio : number
}.

Definition set_ctx (v : option CanvasRenderingContext2D)
    (this : PartitionComponent) : PartitionComponent :=
  {| props := props this; canvasRef := canvasRef this; ctx := v;
     devicePixelRatio := devicePixelRatio this |}.

(** Calls that leave the component. *)
Inductive Call :=
| GetContext (canvas : HTMLCanvasElement)
| GetBoundingClientRect (canvas : HTMLCanvasElement)
| PickQuads (x y : number)
| RenderPartitionCanvas2d (cx : CanvasRenderingContext2D) (dpr : number)
    (vm : ShapeViewModel)
| OnChartRendered.

(** ** Methods as programs over the component and the trace of calls *)

Module Method.

(** A method body: from the component before to the returned value, the
    component after and the calls made, oldest first. *)
Definition t (A : Type) : Type :=
  PartitionComponent → A * PartitionComponent * list Call.

Definition pure {A} (a : A) : t A := λ this, (a, this, []).

Definition and_then {A B} (m : t A) (k : A → t B) : t B :=
  λ this,
    let '(a, this1, calls1) := m this in
    let '(b, this2, calls2) := k a this1 in
    (b, this2, calls1 ++ calls2).

(** Reading [this]. *)
Definition this : t PartitionComponent := λ c, (c, c, []).

(** [this.ctx = v]. *)
Definition assign_ctx (v : option CanvasRenderingContext2D) : t unit :=
  λ c, (tt, set_ctx v c, []).

(** A call to the outside whose answer [a] the environment fixes. *)
Definition call {A} (e : Call) (a : A) : t A := λ c, (a, c, [e]).

Definition value {A} (r : A * PartitionComponent * list Call) : A := r.1.1.
Definition after {A} (r : A * PartitionComponent * list Call)
  : PartitionComponent := r.1.2.
Definition calls {A} (r : A * PartitionComponent * list Call)
  : list Call := r.2.

End Method.

Notation "'let*' x ':=' m 'in' k" := (Method.and_then m (λ x, k))
  (at level 10, x pattern, m at level 100, k at level 200, only parsing).
Notation "m ';;;' k" := (Method.and_then m (λ _, k))
  (at level 100, k at level 200, right associativity, only parsing).

(** [constructor(props)], with the pixel ratio [window] reports then. *)
Definition constructor (p : PartitionProps) (window_devicePixelRatio : number)
    : PartitionComponent :=
  {| props := p; canvasRef := None; ctx := None;
     devicePixelRatio := window_devicePixelRatio |}.

(** [{ ...config, width, height }]. *)
Definition spread_config (cfg : gmap string JsValue) (w h : number)
    : gmap string JsValue :=
  <["height" := JsNumber h]> (<["width" := JsNumber w]> cfg).

(** [{ ...geometries, config: c }]. *)
Definition spread_geometries (g : ShapeViewModel) (c : gmap string JsValue)
    : ShapeViewModel :=
  {| config := c; diskCenter := diskCenter g; pickQuads := pickQuads g;
     otherFields := otherFields g |}.

Definition drawCanvas : Method.t unit :=
  let* this := Method.this in
  match ctx this with
  | Some cx =>
      let w := width (chartContainerDimensions (props this)) in
      let h := height (chartContainerDimensions (props this)) in
      Method.call
        (RenderPartitionCanvas2d cx (devicePixelRatio this)
           (spread_geometries (geometries (props this))
              (spread_config (config (geometries (props this))) w h)))
        tt
  | None => Method.pure tt
  end.

Definition tryCanvasContext : Method.t unit :=
  let* this := Method.this in
  match canvasRef this with
  | Some canvas =>
      let* cx := Method.call (GetContext canvas) (getContext_2d canvas) in
      Method.assign_ctx cx
  | None => Method.assign_ctx None
  end.

Definition componentDidUpdate : Method.t unit :=
  let* this := Method.this in
  (match ctx this with
   | None => tryCanvasContext
   | Some _ => Method.pure tt
   end) ;;;
  let* this := Method.this in
  if initialized (props this)
  then drawCanvas ;;; Method.call OnChartRendered tt
  else Method.pure tt.

Definition componentDidMount : Method.t unit :=
  tryCanvasContext ;;;
  let* this := Method.this in
  if initialized (props this)
  then drawCanvas ;;; Method.call OnChartRendered tt
  else Method.pure tt.

(** *** Picking *)

(** A JavaScript [Set] of row indices: its elements in insertion order. *)
Definition set_add (i : N) (s : list N) : list N :=
  if decide (i ∈ s) then s else s ++ [i].

(** [indices.forEach((i) => datumIndices.add(i))]. *)
Definition add_all (datumIndices indices : list N) : list N :=
  foldl (λ s i, set_add i s) datumIndices indices.

(** The body of the callback of [pickedShapes.forEach], as a function of the
    set before to the set after. *)
Definition visit_shape (datumIndices : list N) (shape : QuadViewModel)
    : list N :=
  let node := parent shape in
  match find (λ entry, strict_equals entry.1 (dataName shape))
             (children node) with
  | Some shapeNode =>
      let indices := default [] (inputIndex shapeNode.2) in
      add_all datumIndices indices
  | None => datumIndices
  end.

(** [const datumIndices = new Set(); pickedShapes.forEach(...)]. *)
Definition collect_datumIndices (pickedShapes : list QuadViewModel) : list N :=
  foldl visit_shape [] pickedShapes.

(** The locals alive at [return pickedShapes]. *)
Record PickLocals := mkPickLocals {
  local_x : number;
  local_y : number;
  pickedShapes : list QuadViewModel;
  datumIndices : list N
}.

(** [handleMouseMove] up to its [return]: [None] is the early [return;],
    otherwise the locals at the final [return]. *)
Definition handleMouseMove_locals (e : MouseEvent)
    : Method.t (option PickLocals) :=
  let* this := Method.this in
  let initialized := initialized (props this) in
  let width := width (chartContainerDimensions (props this)) in
  let height := height (chartContainerDimensions (props this)) in
  match canvasRef this, ctx this with
  | Some canvas, Some _ =>
      if negb initialized || is_zero width || is_zero height
      then Method.pure None
      else
        let picker := pickQuads (geometries (props this)) in
        let* box :=
          Method.call (GetBoundingClientRect canvas)
                      (getBoundingClientRect canvas) in
        let diskCenter := diskCenter (geometries (props this)) in
        let x := clientX e - rect_left box - point_x diskCenter in
        let y := clientY e - rect_top box - point_y diskCenter in
        let* pickedShapes := Method.call (PickQuads x y) (picker x y) in
        let datumIndices := collect_datumIndices pickedShapes in
        Method.pure (Some (mkPickLocals x y pickedShapes datumIndices))
  | _, _ => Method.pure None
  end.

(** [handleMouseMove(e)]: [undefined] or the picked shapes. *)
Definition handleMouseMove (e : MouseEvent)
    : Method.t (option (list QuadViewModel)) :=
  let* locals := handleMouseMove_locals e in
  Method.pure (pickedShapes <$> locals).

(** *** Rendering *)

(** [render()]: [null], or the props of the [<canvas>]. *)
Definition render (this : PartitionComponent) : option CanvasProps :=
  let initialized := initialized (props this) in
  let width := width (chartContainerDimensions (props this)) in
  let height := height (chartContainerDimensions (props this)) in
  if negb initialized || is_zero width || is_zero height
  then None
  else Some {| className := "echCanvasRenderer";
               attr_width := width * devicePixelRatio this;
               attr_height := height * devicePixelRatio this;
               style_width := width;
               style_height := height |}.

(** *** Projection of the store's state *)

Section MapStateToProps.

(** The store's state and the two selectors live elsewhere in the
    repository, as does the constructor of the empty view model. *)
Context {GlobalChartState : Type}.
Variable isInitialized : GlobalChartState → bool.
Variable partitionGeometries : GlobalChartState → ShapeViewModel.
Variable parentDimensions : GlobalChartState → Dimensions.
Variable nullShapeViewModel : ShapeViewModel.

Definition DEFAULT_PROPS : PartitionProps :=
  {| initialized := false;
     geometries := nullShapeViewModel;
     chartContainerDimensions :=
       {| width := 0; height := 0; dim_left := 0; dim_top := 0 |} |}.

Definition mapStateToProps (state : GlobalChartState) : PartitionProps :=
  if negb (isInitialized state) then DEFAULT_PROPS
  else {| initialized := true;
          geometries := partitionGeometries state;
          chartContainerDimensions := parentDimensions state |}.

End MapStateToProps.

(** ** The component driven by its host *)

(** What React and the browser do to a component after its construction:
    hand it new props, attach or detach the canvas behind [canvasRef], run a
    lifecycle method, deliver a mouse move. *)
Inductive Action :=
| ReceiveProps (p : PartitionProps)
| AttachRef (r : option HTMLCanvasElement)
| DidMount
| DidUpdate
| MouseMove (e : MouseEvent).

Definition perform (a : Action) : Method.t unit :=
  match a with
  | ReceiveProps p =>
      λ c, (tt, {| props := p; canvasRef := canvasRef c; ctx := ctx c;
                   devicePixelRatio := devicePixelRatio c |}, [])
  | AttachRef r =>
      λ c, (tt, {| props := props c; canvasRef := r; ctx := ctx c;
                   devicePixelRatio := devicePixelRatio c |}, [])
  | DidMount => componentDidMount
  | DidUpdate => componentDidUpdate
  | MouseMove e => handleMouseMove e ;;; Method.pure tt
  end.

Fixpoint perform_all (l : list Action) : Method.t unit :=
  match l with
  | [] => Method.pure tt
  | a :: l' => perform a ;;; perform_all l'
  end.

(** ** Reading a trace *)

Definition is_notification (c : Call) : bool :=
  match c with OnChartRendered => true | _ => false end.

Definition is_draw (c : Call) : bool :=
  match c with RenderPartitionCanvas2d _ _ _ => true | _ => false end.

(** The notification is among the calls. *)
Definition notified (calls : list Call) : bool := existsb is_notification calls.

(** The drawing routine is among the calls. *)
Definition drawn (calls : list Call) : bool := existsb is_draw calls.

(** How many times the notification was sent. *)
Definition notifications (calls : list Call) : nat :=
  length (List.filter is_notification calls).

(** ** The specification's vocabulary *)

(** The subtree a picked shape resolves to: the first child of the shape's
    parent whose key is strictly equal to the shape's [dataName]. *)
Definition resolves (shape : QuadViewModel) (subtree : ArrayNode) : Prop :=
  ∃ before key rest,
    children (parent shape) = before ++ (key, subtree) :: rest
    ∧ strict_equals key (dataName shape) = true
    ∧ Forall (λ entry, strict_equals entry.1 (dataName shape) = false) before.

(** No child of the shape's parent has the shape's [dataName] as key. *)
Definition unresolved (shape : QuadViewModel) : Prop :=
  Forall (λ entry, strict_equals entry.1 (dataName shape) = false)
         (children (parent shape)).

(** The chart-local point of a pointer position, for a surface whose bounding
    rectangle is [box] and a shape tree centred at [center]. *)
Definition chart_local (e : MouseEvent) (box : DOMRect) (center : PointObject)
    : number * number :=
  (clientX e - rect_left box - point_x center,
   clientY e - rect_top box - point_y center).

(** The claim that a step notifies only after a successful draw of an
    initialized chart with non-zero dimensions. *)
Definition notifies_only_after_successful_draw (step : Method.t unit)
    (this : PartitionComponent) : Prop :=
  notified (Method.calls (step this)) = true →
  initialized (props this) = true
  ∧ is_zero (width (chartContainerDimensions (props this))) = false
  ∧ is_zero (height (chartContainerDimensions (props this))) = false
  ∧ drawn (Method.calls (step this)) = true.

(** ** Sample data *)

Module Sample.

Definition rows_12 : ArrayNode := mkArrayNode (Some [1; 2]%N) [].
Definition rows_23 : ArrayNode := mkArrayNode (Some [2; 3]%N) [].
Definition no_rows : ArrayNode := mkArrayNode None [].

Definition root : ArrayNode :=
  mkArrayNode None
    [(PvString "a", rows_12); (PvString "b", rows_23);
     (PvNull, no_rows); (PvString "a", mkArrayNode (Some [9]%N) [])].

Definition quad_a : QuadViewModel := mkQuad root (PvString "a").
Definition quad_b : QuadViewModel := mkQuad root (PvString "b").
Definition quad_null : QuadViewModel := mkQuad root PvNull.
Definition quad_orphan : QuadViewModel := mkQuad root (PvString "z").

(** Two shapes under the centre, nothing elsewhere. *)
Definition picker (x y : number) : list QuadViewModel :=
  if is_zero x && is_zero y then [quad_a; quad_b] else [].

Definition geometry : ShapeViewModel :=
  {| config := <["fontFamily" := JsString "Arial"]>
                 (<["width" := JsNumber 800]>
                    (<["height" := JsNumber 600]> ∅));
     diskCenter := mkPoint 50 50;
     pickQuads := picker;
     otherFields := {["quadViewModel" := JsObject []]} |}.

Definition container : Dimensions := mkDimensions 100 50 0 0.
Definition collapsed : Dimensions := mkDimensions 0 0 0 0.

Definition context : CanvasRenderingContext2D := mkContext 1.
Definition canvas : HTMLCanvasElement :=
  mkCanvas 1 (Some context) (mkRect 10 10 100 50).

Definition ready_props : PartitionProps := mkProps true geometry container.
Definition collapsed_props : PartitionProps :=
  mkProps true geometry collapsed.

(** Constructed on a 2.5x display, canvas attached, mounted. *)
Definition ready : PartitionComponent :=
  Method.after
    (perform_all [AttachRef (Some canvas); DidMount]
                 (constructor ready_props 2.5)).

(** Initialized but not laid out: [render()] gave [null], no canvas. *)
Definition unsized : PartitionComponent := constructor collapsed_props 2.5.

Definition at_centre : MouseEvent := mkMouseEvent 60 60.
Definition off_chart : MouseEvent := mkMouseEvent 500 500.

(** A store whose state is its three relevant parts. *)
Definition store : Type := bool * ShapeViewModel * Dimensions.
Definition null_view_model : ShapeViewModel :=
  {| config := ∅; diskCenter := mkPoint 0 0; pickQuads := λ _ _, [];
     otherFields := ∅ |}.
Definition starting : store := (false, geometry, container).

End Sample.

(** ** Histories *)

(** The lifecycle methods of a history that find the chart initialized, [p]
    being the props the history starts with. *)
Fixpoint initialized_lifecycle_steps (p : PartitionProps)
    (history : list Action) : nat :=
  match history with
  | [] => 0%nat
  | ReceiveProps p' :: rest => initialized_lifecycle_steps p' rest
  | (DidMount | DidUpdate) :: rest =>
      ((if initialized p then 1 else 0)
       + initialized_lifecycle_steps p rest)%nat
  | (AttachRef _ | MouseMove _) :: rest => initialized_lifecycle_steps p rest
  end.

(** The action puts a canvas behind [canvasRef]. *)
Definition attaches_canvas (a : Action) : bool :=
  match a with AttachRef (Some _) => true | _ => false end.

(** The same component with another [left] and [top] of its container and
    another stored pixel ratio. *)
Definition relocated (new_left new_top new_ratio : number)
    (this : PartitionComponent) : PartitionComponent :=
  {| props :=
       {| initialized := initialized (props this);
          geometries := geometries (props this);
          chartContainerDimensions :=
            {| width := width (chartContainerDimensions (props this));
               height := height (chartContainerDimensions (props this));
               dim_left := new_left;
               dim_top := new_top |} |};
     canvasRef := canvasRef this;
     ctx := ctx this;
     devicePixelRatio := new_ratio |}.

Module Scenario.

(** A second canvas, with a context of its own. *)
Definition later_context : CanvasRenderingContext2D := mkContext 2.
Definition later_canvas : HTMLCanvasElement :=
  mkCanvas 2 (Some later_context) (mkRect 0 0 100 50).

(** The sample component after React has replaced its canvas. *)
Definition recanvased : PartitionComponent :=
  Method.after (perform (AttachRef (Some later_canvas)) Sample.ready).

(** The sample component with canvas and context, its container collapsed. *)
Definition collapsed : PartitionComponent :=
  Method.after (perform (ReceiveProps Sample.collapsed_props) Sample.ready).

(** Constructed, canvas attached, not yet mounted. *)
Definition attached : PartitionComponent :=
  Method.after (perform (AttachRef (Some Sample.canvas))
                        (constructor Sample.ready_props 2.5)).

(** A geometry laid out for the very container it is drawn in. *)
Definition fitted_geometry : ShapeViewModel :=
  {| config := <["fontFamily" := JsString "Arial"]>
                 (<["width" := JsNumber 100]>
                    (<["height" := JsNumber 50]> ∅));
     diskCenter := mkPoint 50 25;
     pickQuads := Sample.picker;
     otherFields := ∅ |}.

Definition fitted : PartitionComponent :=
  Method.after
    (perform_all [AttachRef (Some Sample.canvas); DidMount]
       (constructor (mkProps true fitted_geometry Sample.container) 1)).

(** A store that is initialized and laid out. *)
Definition running : Sample.store := (true, Sample.geometry, Sample.container).

(** A session: mount without a size, get one, move the mouse, lose the
    canvas, get another. *)
Definition session : list Action :=
  [DidMount;
   ReceiveProps Sample.ready_props; AttachRef (Some Sample.canvas); DidUpdate;
   MouseMove Sample.at_centre;
   ReceiveProps Sample.collapsed_props; AttachRef None; DidUpdate;
   ReceiveProps Sample.ready_props; AttachRef (Some later_canvas); DidUpdate].

(** A session in which no canvas ever appears. *)
Definition canvasless : list Action :=
  [DidMount; ReceiveProps Sample.ready_props; DidUpdate;
   MouseMove Sample.at_centre; AttachRef None; DidUpdate].

End Scenario.

(** ** Draw before notification *)

(** The claim that in a step the drawing routine has been called, and has
    returned, before the notification is sent: every notification in the
    calls of the step has a call to the drawing routine before it. *)
Definition draw_returned_before_notification (step : Method.t unit)
    (this : PartitionComponent) : Prop :=
  ∀ before later,
    Method.calls (step this) = before ++ OnChartRendered :: later →
    drawn before = true.

Module Contextless.

(** A canvas on which [getContext('2d')] answers [null]. *)
Definition canvas : HTMLCanvasElement :=
  mkCanvas 3 None (mkRect 10 10 100 50).

(** An initialized chart of 100 by 50 whose canvas gives no context, about
    to be mounted. *)
Definition sized : PartitionComponent :=
  Method.after (perform (AttachRef (Some canvas))
                        (constructor Sample.ready_props 2.5)).

End Contextless.

(** * Properties *)

(** ** Numbers *)

Example is_zero_negative_zero : is_zero (-0) = true.
Proof. reflexivity. Qed.

Example is_zero_nan : is_zero nan = false.
Proof. reflexivity. Qed.

(** ** One method at a time *)

Lemma drawCanvas_without_context (this : PartitionComponent) :
  ctx this = None → drawCanvas this = (tt, this, []).
Proof. intros H. unfold drawCanvas, Method.and_then, Method.this. now rewrite H. Qed.

Lemma drawCanvas_with_context (this : PartitionComponent) cx :
  ctx this = Some cx →
  drawCanvas this =
    (tt, this,
     [RenderPartitionCanvas2d cx (devicePixelRatio this)
        (spread_geometries (geometries (props this))
           (spread_config (config (geometries (props this)))
              (width (chartContainerDimensions (props this)))
              (height (chartContainerDimensions (props this)))))]).
Proof. intros H. unfold drawCanvas, Method.and_then, Method.this. now rewrite H. Qed.

Lemma drawCanvas_after (this : PartitionComponent) :
  Method.after (drawCanvas this) = this.
Proof.
  destruct (ctx this) as [cx|] eqn:E.
  - now rewrite (drawCanvas_with_context _ _ E).
  - now rewrite (drawCanvas_without_context _ E).
Qed.

Lemma spread_config_other (cfg : gmap string JsValue) w h (k : string) :
  k ≠ "width" → k ≠ "height" → spread_config cfg w h !! k = cfg !! k.
Proof.
  intros Hw Hh. unfold spread_config.
  rewrite lookup_insert_ne by congruence.
  now rewrite lookup_insert_ne by congruence.
Qed.

Lemma spread_config_width (cfg : gmap string JsValue) w h :
  spread_config cfg w h !! "width" = Some (JsNumber w).
Proof.
  unfold spread_config.
  rewrite lookup_insert_ne by discriminate. apply lookup_insert_eq.
Qed.

Lemma spread_config_height (cfg : gmap string JsValue) w h :
  spread_config cfg w h !! "height" = Some (JsNumber h).
Proof. unfold spread_config. apply lookup_insert_eq. Qed.

Lemma handleMouseMove_locals_ready (this : PartitionComponent) e canvas cx :
  canvasRef this = Some canvas →
  ctx this = Some cx →
  initialized (props this) = true →
  is_zero (width (chartContainerDimensions (props this))) = false →
  is_zero (height (chartContainerDimensions (props this))) = false →
  let g := geometries (props this) in
  let p := chart_local e (getBoundingClientRect canvas) (diskCenter g) in
  handleMouseMove_locals e this =
    (Some (mkPickLocals p.1 p.2 (pickQuads g p.1 p.2)
             (collect_datumIndices (pickQuads g p.1 p.2))),
     this,
     [GetBoundingClientRect canvas; PickQuads p.1 p.2]).
Proof.
  intros Hc Hx Hi Hw Hh.
  unfold handleMouseMove_locals, Method.and_then, Method.this.
  rewrite Hc, Hx, Hi, Hw, Hh. reflexivity.
Qed.

Lemma handleMouseMove_locals_suppressed (this : PartitionComponent) e :
  canvasRef this = None ∨ ctx this = None
  ∨ initialized (props this) = false
  ∨ is_zero (width (chartContainerDimensions (props this))) = true
  ∨ is_zero (height (chartContainerDimensions (props this))) = true →
  handleMouseMove_locals e this = (None, this, []).
Proof.
  intros H.
  unfold handleMouseMove_locals, Method.and_then, Method.this.
  destruct (canvasRef this) as [canvas|]; [|reflexivity].
  destruct (ctx this) as [cx|]; [|reflexivity].
  destruct H as [H|[H|[H|[H|H]]]]; try discriminate; rewrite H; simpl.
  - reflexivity.
  - now rewrite orb_true_r.
  - now rewrite orb_true_r.
Qed.

Lemma handleMouseMove_unfold (this : PartitionComponent) e :
  handleMouseMove e this =
    (pickedShapes <$> Method.value (handleMouseMove_locals e this),
     Method.after (handleMouseMove_locals e this),
     Method.calls (handleMouseMove_locals e this)).
Proof.
  unfold handleMouseMove, Method.and_then, Method.pure.
  destruct (handleMouseMove_locals e this) as [[v c] t]. simpl.
  now rewrite app_nil_r.
Qed.

Lemma pick_suppressed_props (this : PartitionComponent) e :
  initialized (props this) = false → handleMouseMove e this = (None, this, []).
Proof.
  intros H. rewrite handleMouseMove_unfold.
  rewrite (handleMouseMove_locals_suppressed this e); auto.
Qed.

(** C1. When the surface is mounted, a context is held, the chart is
    initialized and neither container dimension is zero, [handleMouseMove]
    reads the bounding rectangle and then queries the geometry model once, at
    [x = clientX - box.left - diskCenter.x],
    [y = clientY - box.top - diskCenter.y]: that is the point the call is
    made with, the point [pickQuads] is applied to for the shapes that are
    returned, and the point held in the locals [x] and [y]. *)
Theorem pick_queries_chart_local_point
    (this : PartitionComponent) (e : MouseEvent) canvas cx :
  canvasRef this = Some canvas →
  ctx this = Some cx →
  initialized (props this) = true →
  is_zero (width (chartContainerDimensions (props this))) = false →
  is_zero (height (chartContainerDimensions (props this))) = false →
  let box := getBoundingClientRect canvas in
  let center := diskCenter (geometries (props this)) in
  let x := clientX e - rect_left box - point_x center in
  let y := clientY e - rect_top box - point_y center in
  Method.calls (handleMouseMove e this)
  = [GetBoundingClientRect canvas; PickQuads x y]
  ∧ Method.value (handleMouseMove e this)
    = Some (pickQuads (geometries (props this)) x y)
  ∧ ∃ locals,
      Method.value (handleMouseMove_locals e this) = Some locals
      ∧ local_x locals = x ∧ local_y locals = y
      ∧ pickedShapes locals = pickQuads (geometries (props this)) x y.
Proof.
  intros Hc Hx Hi Hw Hh box center x y.
  rewrite handleMouseMove_unfold.
  rewrite (handleMouseMove_locals_ready this e canvas cx Hc Hx Hi Hw Hh).
  split; [reflexivity|]. split; [reflexivity|].
  eexists. split; [reflexivity|]. simpl. auto.
Qed.

(** The pointer at (60,60) over a surface at (10,10) whose shape tree is
    centred at (50,50) queries the spatial index at (0,0), where the sample
    geometry has its two shapes. *)
Lemma pick_queries_chart_local_point_witness :
  Method.calls (handleMouseMove Sample.at_centre Sample.ready)
  = [GetBoundingClientRect Sample.canvas; PickQuads 0 0]
  ∧ Method.value (handleMouseMove Sample.at_centre Sample.ready)
    = Some (Sample.picker 0 0)
  ∧ ∃ locals,
      Method.value (handleMouseMove_locals Sample.at_centre Sample.ready)
      = Some locals
      ∧ local_x locals = 0 ∧ local_y locals = 0
      ∧ pickedShapes locals = Sample.picker 0 0.
Proof.
  apply (pick_queries_chart_local_point Sample.ready Sample.at_centre
           Sample.canvas Sample.context); reflexivity.
Defined.

(** At (0,0) the sample geometry answers its two shapes; at the pointer's
    viewport position (60,60) it would answer none. *)
Example pick_at_centre_finds_shapes :
  Method.value (handleMouseMove Sample.at_centre Sample.ready)
  = Some [Sample.quad_a; Sample.quad_b]
  ∧ Sample.picker 60 60 = [].
Proof. split; reflexivity. Qed.

(** C2. When the surface is not mounted, or no context is held, or the chart
    is not initialized, or a container dimension is zero, [handleMouseMove]
    returns [undefined] having made no call (no bounding rectangle read, no
    spatial query), computed no index set and left the component as it
    was. *)
Theorem pick_suppressed (this : PartitionComponent) (e : MouseEvent) :
  canvasRef this = None ∨ ctx this = None
  ∨ initialized (props this) = false
  ∨ is_zero (width (chartContainerDimensions (props this))) = true
  ∨ is_zero (height (chartContainerDimensions (props this))) = true →
  handleMouseMove e this = (None, this, [])
  ∧ handleMouseMove_locals e this = (None, this, []).
Proof.
  intros H. rewrite handleMouseMove_unfold.
  now rewrite (handleMouseMove_locals_suppressed this e H).
Qed.

(** An initialized chart with a canvas and a context, of width zero. *)
Lemma pick_suppressed_witness :
  let this :=
    Method.after (perform (ReceiveProps Sample.collapsed_props) Sample.ready) in
  initialized (props this) = true
  ∧ handleMouseMove Sample.at_centre this = (None, this, [])
  ∧ handleMouseMove_locals Sample.at_centre this = (None, this, []).
Proof.
  intros this. split; [reflexivity|].
  apply (pick_suppressed this Sample.at_centre).
  right; right; right; left. reflexivity.
Defined.

(** ** The index set *)

Section IndexSet.

Implicit Types (i j : N) (s indices : list N).

Lemma elem_of_set_add i j s : j ∈ set_add i s ↔ j = i ∨ j ∈ s.
Proof.
  unfold set_add. case_decide as Hin.
  - split; [auto|]. intros [->|?]; assumption.
  - rewrite elem_of_app, list_elem_of_singleton. tauto.
Qed.

Lemma NoDup_set_add i s : NoDup s → NoDup (set_add i s).
Proof.
  intros Hs. unfold set_add. case_decide as Hin; [assumption|].
  apply NoDup_app. split; [assumption|]. split.
  - intros x Hx Hx'. apply list_elem_of_singleton in Hx'. now subst.
  - apply NoDup_singleton.
Qed.

Lemma elem_of_add_all indices : ∀ s j,
  j ∈ add_all s indices ↔ j ∈ s ∨ j ∈ indices.
Proof.
  unfold add_all. induction indices as [|i indices IH]; intros s j; simpl.
  - rewrite elem_of_nil. tauto.
  - rewrite IH, elem_of_set_add, elem_of_cons. tauto.
Qed.

Lemma NoDup_add_all indices : ∀ s, NoDup s → NoDup (add_all s indices).
Proof.
  unfold add_all. induction indices as [|i indices IH]; intros s Hs; simpl.
  - assumption.
  - apply IH. now apply NoDup_set_add.
Qed.

End IndexSet.

(** [Array.prototype.find]: the first element that satisfies the test. *)
Lemma find_first {A} (f : A → bool) (l : list A) (a : A) :
  find f l = Some a ↔
  ∃ before rest,
    l = before ++ a :: rest ∧ f a = true ∧ Forall (λ b, f b = false) before.
Proof.
  induction l as [|b l IH]; simpl.
  - split; [discriminate|]. intros (before & rest & H & _).
    now destruct before.
  - destruct (f b) eqn:Hb.
    + split.
      * intros [= ->]. exists [], l. auto.
      * intros ([|b' before] & rest & H & Ha & Hall); simplify_eq/=.
        -- reflexivity.
        -- apply Forall_cons in Hall as [Hb' _]. congruence.
    + rewrite IH. split.
      * intros (before & rest & -> & Ha & Hall).
        exists (b :: before), rest. auto.
      * intros ([|b' before] & rest & H & Ha & Hall); simplify_eq/=.
        -- congruence.
        -- apply Forall_cons in Hall as [_ Hall]. eauto.
Qed.

Lemma find_nothing {A} (f : A → bool) (l : list A) :
  find f l = None ↔ Forall (λ b, f b = false) l.
Proof.
  induction l as [|b l IH]; simpl.
  - split; [constructor|reflexivity].
  - destruct (f b) eqn:Hb.
    + split; [discriminate|]. intros H.
      apply Forall_cons in H as [H _]. congruence.
    + rewrite IH. split; [now constructor|].
      intros H. now apply Forall_cons in H as [_ H].
Qed.

Lemma resolves_find (shape : QuadViewModel) (subtree : ArrayNode) :
  resolves shape subtree ↔
  ∃ key, find (λ entry, strict_equals entry.1 (dataName shape))
              (children (parent shape)) = Some (key, subtree).
Proof.
  unfold resolves. split.
  - intros (before & key & rest & H & Hk & Hall). exists key.
    apply find_first. eauto.
  - intros (key & H). apply find_first in H as (before & rest & H & Hk & Hall).
    eauto 6.
Qed.

Lemma visit_shape_unresolved s (shape : QuadViewModel) :
  unresolved shape → visit_shape s shape = s.
Proof.
  intros H. apply find_nothing in H. unfold visit_shape. now rewrite H.
Qed.

Lemma visit_shape_no_rows s (shape : QuadViewModel) subtree :
  resolves shape subtree → inputIndex subtree = None →
  visit_shape s shape = s.
Proof.
  intros H Hnone. apply resolves_find in H as [key H].
  unfold visit_shape. rewrite H. simpl. now rewrite Hnone.
Qed.

Lemma elem_of_visit_shape s (shape : QuadViewModel) (j : N) :
  j ∈ visit_shape s shape ↔
  j ∈ s ∨ ∃ subtree indices,
            resolves shape subtree
            ∧ inputIndex subtree = Some indices ∧ j ∈ indices.
Proof.
  unfold visit_shape.
  destruct (find _ (children (parent shape))) as [[key sub]|] eqn:Hfind.
  - rewrite elem_of_add_all. simpl. split.
    + intros [?|Hj]; [auto|]. right.
      destruct (inputIndex sub) as [indices|] eqn:Hi; simpl in Hj.
      * exists sub, indices. split; [|auto]. apply resolves_find. eauto.
      * now apply elem_of_nil in Hj.
    + intros [?|(sub' & indices & Hr & Hi & Hj)]; [auto|]. right.
      apply resolves_find in Hr as [key' Hr]. rewrite Hfind in Hr.
      simplify_eq. now rewrite Hi.
  - split; [auto|]. intros [?|(sub' & indices & Hr & _)]; [assumption|].
    apply resolves_find in Hr as [key' Hr]. congruence.
Qed.

Lemma NoDup_visit_shape s (shape : QuadViewModel) :
  NoDup s → NoDup (visit_shape s shape).
Proof.
  intros Hs. unfold visit_shape. destruct (find _ _); [|assumption].
  now apply NoDup_add_all.
Qed.

Lemma elem_of_foldl_visit_shape (shapes : list QuadViewModel) : ∀ s (j : N),
  j ∈ foldl visit_shape s shapes ↔
  j ∈ s ∨ ∃ shape subtree indices,
            shape ∈ shapes ∧ resolves shape subtree
            ∧ inputIndex subtree = Some indices ∧ j ∈ indices.
Proof.
  induction shapes as [|shape shapes IH]; intros s j; simpl.
  - split; [auto|]. intros [?|(shape & ? & ? & H & _)]; [assumption|].
    now apply elem_of_nil in H.
  - rewrite IH, elem_of_visit_shape. split.
    + intros [[?|(sub & ind & ? & ? & ?)]|(sh & sub & ind & ? & ? & ? & ?)].
      * auto.
      * right. exists shape, sub, ind. rewrite elem_of_cons. auto.
      * right. exists sh, sub, ind. rewrite elem_of_cons. auto.
    + intros [?|(sh & sub & ind & Hsh & ? & ? & ?)]; [auto|].
      apply elem_of_cons in Hsh as [->|Hsh]; [left; right; eauto|].
      right. eauto 8.
Qed.

Lemma NoDup_foldl_visit_shape (shapes : list QuadViewModel) : ∀ s,
  NoDup s → NoDup (foldl visit_shape s shapes).
Proof.
  induction shapes as [|shape shapes IH]; intros s Hs; simpl; [assumption|].
  apply IH. now apply NoDup_visit_shape.
Qed.

Lemma collect_datumIndices_skip (first rest : list QuadViewModel) shape :
  visit_shape (collect_datumIndices first) shape = collect_datumIndices first →
  collect_datumIndices (first ++ shape :: rest)
  = collect_datumIndices (first ++ rest).
Proof.
  intros H. unfold collect_datumIndices in *.
  rewrite !foldl_app. simpl. now rewrite H.
Qed.

(** ** Picking *)

(** C3. When [handleMouseMove] gets past its guard, the index set it has
    built at its [return] has no duplicate and holds exactly the row indices
    carried by the subtrees the picked shapes resolve to (the first child of
    the shape's parent whose key is the shape's [dataName]).  A picked shape
    that resolves to nothing, or to a subtree without indices, leaves the set
    as if that shape had not been picked, and the pick goes on. *)
Theorem pick_aggregates_row_indices
    (this : PartitionComponent) (e : MouseEvent) canvas cx :
  canvasRef this = Some canvas →
  ctx this = Some cx →
  initialized (props this) = true →
  is_zero (width (chartContainerDimensions (props this))) = false →
  is_zero (height (chartContainerDimensions (props this))) = false →
  ∃ locals,
    Method.value (handleMouseMove_locals e this) = Some locals
    ∧ pickedShapes locals
      = pickQuads (geometries (props this)) (local_x locals) (local_y locals)
    ∧ NoDup (datumIndices locals)
    ∧ (∀ i : N,
         i ∈ datumIndices locals ↔
         ∃ shape subtree indices,
           shape ∈ pickedShapes locals ∧ resolves shape subtree
           ∧ inputIndex subtree = Some indices ∧ i ∈ indices)
    ∧ (∀ first shape rest,
         pickedShapes locals = first ++ shape :: rest →
         unresolved shape
         ∨ (∃ subtree, resolves shape subtree ∧ inputIndex subtree = None) →
         datumIndices locals = collect_datumIndices (first ++ rest)).
Proof.
  intros Hc Hx Hi Hw Hh.
  rewrite (handleMouseMove_locals_ready this e canvas cx Hc Hx Hi Hw Hh).
  eexists. split; [reflexivity|]. simpl. split; [reflexivity|].
  split; [|split].
  - apply NoDup_foldl_visit_shape, NoDup_nil_2.
  - intros i. unfold collect_datumIndices.
    rewrite elem_of_foldl_visit_shape, elem_of_nil. tauto.
  - intros first shape rest -> Hskip.
    apply collect_datumIndices_skip.
    destruct Hskip as [Hu|(subtree & Hr & Hn)].
    + now apply visit_shape_unresolved.
    + now apply (visit_shape_no_rows _ _ subtree).
Qed.

Lemma pick_aggregates_row_indices_witness :
  ∃ locals,
    Method.value (handleMouseMove_locals Sample.at_centre Sample.ready)
    = Some locals
    ∧ pickedShapes locals
      = Sample.picker (local_x locals) (local_y locals)
    ∧ NoDup (datumIndices locals)
    ∧ (∀ i : N,
         i ∈ datumIndices locals ↔
         ∃ shape subtree indices,
           shape ∈ pickedShapes locals ∧ resolves shape subtree
           ∧ inputIndex subtree = Some indices ∧ i ∈ indices)
    ∧ (∀ first shape rest,
         pickedShapes locals = first ++ shape :: rest →
         unresolved shape
         ∨ (∃ subtree, resolves shape subtree ∧ inputIndex subtree = None) →
         datumIndices locals = collect_datumIndices (first ++ rest)).
Proof.
  apply (pick_aggregates_row_indices Sample.ready Sample.at_centre
           Sample.canvas Sample.context); reflexivity.
Defined.

(** Index sets {1,2} and {2,3} aggregate to {1,2,3}. *)
Example aggregate_12_23 :
  datumIndices <$>
    Method.value (handleMouseMove_locals Sample.at_centre Sample.ready)
  = Some [1; 2; 3]%N.
Proof. reflexivity. Qed.

(** A shape without a matching child and one whose subtree has no indices
    change nothing. *)
Example aggregate_with_skipped_shapes :
  collect_datumIndices
    [Sample.quad_a; Sample.quad_orphan; Sample.quad_null; Sample.quad_b]
  = [1; 2; 3]%N.
Proof. reflexivity. Qed.

(** C6. Past the guard, [handleMouseMove] returns the sequence the spatial
    query answered, as it is; when that sequence is empty the return value is
    the empty sequence and the index set is empty.  It returns [undefined]
    exactly when the guard stops it. *)
Theorem pick_returns_query_answer
    (this : PartitionComponent) (e : MouseEvent) canvas cx :
  canvasRef this = Some canvas →
  ctx this = Some cx →
  initialized (props this) = true →
  is_zero (width (chartContainerDimensions (props this))) = false →
  is_zero (height (chartContainerDimensions (props this))) = false →
  let g := geometries (props this) in
  let p := chart_local e (getBoundingClientRect canvas) (diskCenter g) in
  Method.value (handleMouseMove e this) = Some (pickQuads g p.1 p.2)
  ∧ (pickQuads g p.1 p.2 = [] →
     Method.value (handleMouseMove e this) = Some []
     ∧ datumIndices <$> Method.value (handleMouseMove_locals e this)
       = Some []).
Proof.
  intros Hc Hx Hi Hw Hh g p.
  rewrite handleMouseMove_unfold.
  rewrite (handleMouseMove_locals_ready this e canvas cx Hc Hx Hi Hw Hh).
  fold g. fold p. simpl. split; [reflexivity|].
  intros ->. split; reflexivity.
Qed.

(** A pointer far from every shape. *)
Lemma pick_returns_query_answer_witness :
  Method.value (handleMouseMove Sample.off_chart Sample.ready) = Some []
  ∧ datumIndices <$>
      Method.value (handleMouseMove_locals Sample.off_chart Sample.ready)
    = Some [].
Proof.
  apply (pick_returns_query_answer Sample.ready Sample.off_chart
           Sample.canvas Sample.context); reflexivity.
Defined.

(** [handleMouseMove] returns [undefined] only when its guard stops it. *)
Lemma pick_none_iff_suppressed (this : PartitionComponent) (e : MouseEvent) :
  Method.value (handleMouseMove e this) = None ↔
  canvasRef this = None ∨ ctx this = None
  ∨ initialized (props this) = false
  ∨ is_zero (width (chartContainerDimensions (props this))) = true
  ∨ is_zero (height (chartContainerDimensions (props this))) = true.
Proof.
  split.
  - intros H.
    destruct (canvasRef this) as [canvas|] eqn:Hc; [|auto].
    destruct (ctx this) as [cx|] eqn:Hx; [|auto].
    destruct (initialized (props this)) eqn:Hi; [|auto].
    destruct (is_zero (width _)) eqn:Hw; [auto|].
    destruct (is_zero (height _)) eqn:Hh; [auto 6|].
    rewrite handleMouseMove_unfold in H.
    now rewrite (handleMouseMove_locals_ready this e canvas cx) in H.
  - intros H. rewrite handleMouseMove_unfold.
    now rewrite (handleMouseMove_locals_suppressed this e H).
Qed.

(** C9. [handleMouseMove] leaves the component (its props, its canvas and
    the canvas's bounding rectangle, its context) as it found it, so a second
    call with the same event right after the first returns the same shapes,
    has built the same index set and made the same calls. *)
Theorem pick_twice_same (this : PartitionComponent) (e : MouseEvent) :
  let first := handleMouseMove e this in
  let second := handleMouseMove e (Method.after first) in
  let first_locals := handleMouseMove_locals e this in
  let second_locals := handleMouseMove_locals e (Method.after first_locals) in
  Method.after first = this
  ∧ Method.value second = Method.value first
  ∧ Method.calls second = Method.calls first
  ∧ Method.after first_locals = this
  ∧ datumIndices <$> Method.value second_locals
    = datumIndices <$> Method.value first_locals
  ∧ pickedShapes <$> Method.value second_locals
    = pickedShapes <$> Method.value first_locals.
Proof.
  assert (Hsame : Method.after (handleMouseMove_locals e this) = this).
  { unfold handleMouseMove_locals, Method.and_then, Method.this.
    destruct (canvasRef this); [|reflexivity].
    destruct (ctx this); [|reflexivity].
    destruct (_ || _); reflexivity. }
  assert (Hsame' : Method.after (handleMouseMove e this) = this).
  { now rewrite handleMouseMove_unfold. }
  simpl. rewrite Hsame', Hsame. auto 10.
Qed.

(** ** Drawing *)

(** C5. Without a context [drawCanvas] does nothing.  With a context it makes
    one call, to the drawing routine, with that context, the component's
    pixel ratio and a copy of the geometry whose [config.width] and
    [config.height] are the container's; every other property of [config]
    and every other field of the geometry is as it was.  The component and
    its props are left alone. *)
Theorem drawCanvas_dispatch (this : PartitionComponent) :
  let g := geometries (props this) in
  let d := chartContainerDimensions (props this) in
  match ctx this with
  | None => drawCanvas this = (tt, this, [])
  | Some cx =>
      ∃ snapshot,
        drawCanvas this =
          (tt, this,
           [RenderPartitionCanvas2d cx (devicePixelRatio this) snapshot])
        ∧ config snapshot !! "width" = Some (JsNumber (width d))
        ∧ config snapshot !! "height" = Some (JsNumber (height d))
        ∧ (∀ k : string,
             k ≠ "width" → k ≠ "height" →
             config snapshot !! k = config g !! k)
        ∧ diskCenter snapshot = diskCenter g
        ∧ pickQuads snapshot = pickQuads g
        ∧ otherFields snapshot = otherFields g
  end.
Proof.
  intros g d. destruct (ctx this) as [cx|] eqn:Hx.
  - eexists. split; [apply (drawCanvas_with_context this cx Hx)|].
    simpl. split; [apply spread_config_width|].
    split; [apply spread_config_height|].
    split; [|auto]. intros k Hw Hh. now apply spread_config_other.
  - now apply drawCanvas_without_context.
Qed.

(** The sample geometry was laid out for 800x600 and is drawn at 100x50. *)
Example drawCanvas_sample :
  ∃ snapshot,
    Method.calls (drawCanvas Sample.ready)
    = [RenderPartitionCanvas2d Sample.context 2.5 snapshot]
    ∧ config snapshot !! "width" = Some (JsNumber 100)
    ∧ config snapshot !! "height" = Some (JsNumber 50)
    ∧ config snapshot !! "fontFamily" = Some (JsString "Arial").
Proof. eexists. split; [reflexivity|]. repeat split. Qed.

(** ** Mounting and updating *)

Lemma tryCanvasContext_frame (this : PartitionComponent) :
  let r := tryCanvasContext this in
  props (Method.after r) = props this
  ∧ canvasRef (Method.after r) = canvasRef this
  ∧ devicePixelRatio (Method.after r) = devicePixelRatio this
  ∧ ctx (Method.after r) = canvasRef this ≫= getContext_2d
  ∧ notified (Method.calls r) = false
  ∧ drawn (Method.calls r) = false.
Proof.
  unfold tryCanvasContext, Method.and_then, Method.this.
  destruct (canvasRef this) as [canvas|] eqn:Hc; simpl; rewrite ?Hc; auto 10.
Qed.

Lemma drawCanvas_calls (this : PartitionComponent) :
  notified (Method.calls (drawCanvas this)) = false
  ∧ drawn (Method.calls (drawCanvas this))
    = match ctx this with Some _ => true | None => false end.
Proof.
  destruct (ctx this) as [cx|] eqn:Hx.
  - now rewrite (drawCanvas_with_context _ _ Hx).
  - now rewrite (drawCanvas_without_context _ Hx).
Qed.

Lemma and_then_this {B} (k : PartitionComponent → Method.t B) this :
  Method.and_then Method.this k this = k this this.
Proof.
  unfold Method.and_then, Method.this.
  now destruct (k this this) as [[b c] t].
Qed.

Lemma and_then_same_start {A B} (m m' : Method.t A) (k : A → Method.t B) this :
  m this = m' this → Method.and_then m k this = Method.and_then m' k this.
Proof. intros H. unfold Method.and_then. now rewrite H. Qed.

(** The tail shared by the two lifecycle methods. *)
Lemma draw_then_notify (prelude : Method.t unit) (this : PartitionComponent) :
  props (Method.after (prelude this)) = props this →
  (let* _ := prelude in
   let* this := Method.this in
   if initialized (props this)
   then drawCanvas ;;; Method.call OnChartRendered tt
   else Method.pure tt) this
  = (tt, Method.after (prelude this),
     Method.calls (prelude this)
     ++ if initialized (props this)
        then Method.calls (drawCanvas (Method.after (prelude this)))
             ++ [OnChartRendered]
        else []).
Proof.
  intros Hp. unfold Method.and_then, Method.this.
  destruct (prelude this) as [[[] c] t] eqn:E.
  unfold Method.after, Method.calls in *. simpl in *. rewrite Hp.
  destruct (initialized (props this)); [|reflexivity].
  pose proof (drawCanvas_after c) as Hc. unfold Method.after in Hc.
  destruct (drawCanvas c) as [[[] c'] t']. simpl in *. subst c'.
  reflexivity.
Qed.

Lemma componentDidMount_unfold (this : PartitionComponent) :
  componentDidMount this
  = (tt, Method.after (tryCanvasContext this),
     Method.calls (tryCanvasContext this)
     ++ if initialized (props this)
        then Method.calls (drawCanvas (Method.after (tryCanvasContext this)))
             ++ [OnChartRendered]
        else []).
Proof.
  apply (draw_then_notify tryCanvasContext).
  apply tryCanvasContext_frame.
Qed.

(** The first statement of [componentDidUpdate]. *)
Lemma componentDidUpdate_unfold (this : PartitionComponent) :
  let acquire : Method.t unit :=
    λ c, match ctx c with
         | None => tryCanvasContext c
         | Some _ => (tt, c, [])
         end in
  componentDidUpdate this
  = (tt, Method.after (acquire this),
     Method.calls (acquire this)
     ++ if initialized (props this)
        then Method.calls (drawCanvas (Method.after (acquire this)))
             ++ [OnChartRendered]
        else []).
Proof.
  intros acquire.
  rewrite <- (draw_then_notify acquire).
  - unfold componentDidUpdate. rewrite and_then_this.
    apply and_then_same_start. unfold acquire.
    destruct (ctx this); reflexivity.
  - unfold acquire. destruct (ctx this); [reflexivity|].
    apply tryCanvasContext_frame.
Qed.

Lemma notifications_app (a b : list Call) :
  notifications (a ++ b) = (notifications a + notifications b)%nat.
Proof. unfold notifications. now rewrite List.filter_app, length_app. Qed.

Lemma notified_false_notifications (a : list Call) :
  notified a = false → notifications a = 0%nat.
Proof.
  unfold notified, notifications. induction a as [|c a IH]; simpl; [auto|].
  destruct (is_notification c); simpl; [discriminate|assumption].
Qed.

(** What a lifecycle method does, whichever of the two it is. *)
Lemma lifecycle_shape (a : Action) (this : PartitionComponent) :
  a = DidMount ∨ a = DidUpdate →
  ∃ acquisition,
    notified acquisition = false ∧ drawn acquisition = false
    ∧ props (Method.after (perform a this)) = props this
    ∧ canvasRef (Method.after (perform a this)) = canvasRef this
    ∧ devicePixelRatio (Method.after (perform a this)) = devicePixelRatio this
    ∧ Method.calls (perform a this)
      = acquisition
        ++ if initialized (props this)
           then Method.calls (drawCanvas (Method.after (perform a this)))
                ++ [OnChartRendered]
           else [].
Proof.
  intros [->| ->]; simpl.
  - rewrite componentDidMount_unfold.
    exists (Method.calls (tryCanvasContext this)).
    pose proof (tryCanvasContext_frame this) as H. simpl in H.
    unfold Method.after, Method.calls in *. simpl. tauto.
  - rewrite componentDidUpdate_unfold. simpl.
    destruct (ctx this) as [cx|] eqn:Hx.
    + exists []. auto 10.
    + exists (Method.calls (tryCanvasContext this)).
      pose proof (tryCanvasContext_frame this) as H. simpl in H.
      unfold Method.after, Method.calls in *. simpl. tauto.
Qed.

(** C4, as the code has it.  A mount or update step sends the notification
    once when the chart is initialized and not at all otherwise, whatever the
    container dimensions; the drawing routine is called in the step exactly
    when the chart is initialized and a context is held once the step has
    tried to get one. *)
Theorem notification_when_initialized
    (a : Action) (this : PartitionComponent) :
  a = DidMount ∨ a = DidUpdate →
  notifications (Method.calls (perform a this))
  = (if initialized (props this) then 1 else 0)%nat
  ∧ notified (Method.calls (perform a this)) = initialized (props this)
  ∧ drawn (Method.calls (perform a this))
    = initialized (props this)
      && match ctx (Method.after (perform a this)) with
         | Some _ => true
         | None => false
         end.
Proof.
  intros Ha.
  destruct (lifecycle_shape a this Ha)
    as (acq & Hn & Hd & _ & _ & _ & Hcalls).
  rewrite Hcalls. clear Hcalls.
  pose proof (drawCanvas_calls (Method.after (perform a this))) as [Hdn Hdd].
  unfold notified, drawn in *.
  rewrite notifications_app, (notified_false_notifications _ Hn).
  rewrite !existsb_app, Hn, Hd.
  destruct (initialized (props this)); simpl; [|auto].
  rewrite notifications_app, (notified_false_notifications _ Hdn).
  rewrite !existsb_app, Hdn, Hdd. simpl.
  rewrite orb_false_r. auto.
Qed.

(** An initialized chart that has no size yet: mounted without a canvas, it
    notifies all the same. *)
Lemma notification_when_initialized_witness :
  notifications (Method.calls (perform DidMount Sample.unsized)) = 1%nat
  ∧ notified (Method.calls (perform DidMount Sample.unsized)) = true
  ∧ drawn (Method.calls (perform DidMount Sample.unsized)) = false.
Proof.
  apply (notification_when_initialized DidMount Sample.unsized).
  left. reflexivity.
Defined.

(** C4, as the claim has it, fails on mounting an initialized chart of size
    zero by zero: the notification is sent, the dimensions are zero and
    nothing was drawn. *)
Lemma notification_without_draw :
  ¬ notifies_only_after_successful_draw componentDidMount Sample.unsized.
Proof.
  unfold notifies_only_after_successful_draw. intros H.
  destruct (H eq_refl) as (_ & Hw & _). discriminate Hw.
Qed.

(** Nor does a non-zero size help when no context can be had. *)
Example notification_without_context :
  let this := constructor Sample.ready_props 1 in
  Method.calls (componentDidUpdate this) = [OnChartRendered]
  ∧ ¬ notifies_only_after_successful_draw componentDidUpdate this.
Proof.
  split; [reflexivity|].
  unfold notifies_only_after_successful_draw. intros H.
  destruct (H eq_refl) as (_ & _ & _ & Hd). discriminate Hd.
Qed.

(** C8, as the code has it.  In a mount or update step that sends the
    notification, the notification is the last call of the step and
    [drawCanvas] has run to its end before it, after the attempt to get a
    context (which neither draws nor notifies).  When a context is held the
    call to the drawing routine is the one right before the notification;
    when none is held the notification is sent with no call to the drawing
    routine before it. *)
Theorem draw_precedes_notification
    (a : Action) (this : PartitionComponent) (before later : list Call) :
  a = DidMount ∨ a = DidUpdate →
  Method.calls (perform a this) = before ++ OnChartRendered :: later →
  let now := Method.after (perform a this) in
  later = []
  ∧ notified before = false
  ∧ (∃ acquisition,
       before = acquisition ++ Method.calls (drawCanvas now)
       ∧ drawn acquisition = false)
  ∧ (∀ cx, ctx now = Some cx →
       ∃ snapshot,
         last before
         = Some (RenderPartitionCanvas2d cx (devicePixelRatio now) snapshot))
  ∧ drawn before = match ctx now with Some _ => true | None => false end.
Proof.
  intros Ha Hcalls now.
  destruct (lifecycle_shape a this Ha)
    as (acq & Hn & Hd & _ & _ & _ & Hshape).
  fold now in Hshape. rewrite Hshape in Hcalls. clear Hshape.
  pose proof (drawCanvas_calls now) as [Hdn Hdd].
  destruct (initialized (props this)).
  - rewrite app_assoc in Hcalls.
    assert (Hnot : notified (acq ++ Method.calls (drawCanvas now)) = false).
    { unfold notified in *. now rewrite existsb_app, Hn, Hdn. }
    assert (Hsplit : acq ++ Method.calls (drawCanvas now) = before
                     ∧ later = []).
    { revert Hcalls Hnot. generalize (acq ++ Method.calls (drawCanvas now)).
      intros l. revert before. unfold notified.
      induction l as [|c l IH]; intros [|b before] Hcalls Hnot;
        simpl in *.
      - injection Hcalls as <-. auto.
      - injection Hcalls as _ Hcalls. now destruct before.
      - injection Hcalls as -> _. discriminate Hnot.
      - injection Hcalls as -> Hcalls.
        apply orb_false_iff in Hnot as [_ Hnot].
        destruct (IH _ Hcalls Hnot) as [-> ->]. auto. }
    destruct Hsplit as [<- ->].
    split; [reflexivity|]. split; [assumption|]. split; [eauto|].
    split.
    + intros cx Hx. rewrite (drawCanvas_with_context now cx Hx).
      eexists. unfold Method.calls. simpl. now rewrite last_snoc.
    + unfold drawn in *. now rewrite existsb_app, Hd, Hdd.
  - exfalso. rewrite app_nil_r in Hcalls.
    assert (Hin : notified acq = true).
    { rewrite Hcalls. unfold notified. rewrite existsb_app. simpl.
      now rewrite orb_true_r. }
    congruence.
Qed.

(** Mounting the sample chart: context, then draw, then notification. *)
Lemma draw_precedes_notification_witness :
  let this :=
    Method.after (perform (AttachRef (Some Sample.canvas))
                          (constructor Sample.ready_props 2.5)) in
  let before :=
    [GetContext Sample.canvas;
     RenderPartitionCanvas2d Sample.context 2.5
       (spread_geometries Sample.geometry
          (spread_config (config Sample.geometry) 100 50))] in
  let now := Method.after (perform DidMount this) in
  Method.calls (perform DidMount this) = before ++ [OnChartRendered]
  ∧ notified before = false
  ∧ (∃ acquisition,
       before = acquisition ++ Method.calls (drawCanvas now)
       ∧ drawn acquisition = false)
  ∧ (∀ cx, ctx now = Some cx →
       ∃ snapshot,
         last before
         = Some (RenderPartitionCanvas2d cx (devicePixelRatio now) snapshot))
  ∧ drawn before = true.
Proof.
  intros this before now. split; [reflexivity|].
  apply (draw_precedes_notification DidMount this before []
           (or_introl eq_refl) eq_refl).
Defined.

(** C8, as the claim has it, fails on mounting an initialized chart of 100 by
    50 whose canvas gives no context: the step asks for the context and then
    sends the notification, and no call to the drawing routine was made
    before it. *)
Lemma notification_with_no_draw_before :
  ¬ draw_returned_before_notification componentDidMount Contextless.sized.
Proof.
  unfold draw_returned_before_notification. intros H.
  specialize (H [GetContext Contextless.canvas] [] eq_refl).
  discriminate H.
Qed.

Example contextless_mount_calls :
  Method.calls (componentDidMount Contextless.sized)
  = [GetContext Contextless.canvas; OnChartRendered].
Proof. reflexivity. Qed.

(** It fails on an update as well. *)
Example update_notifies_with_no_draw_before :
  ¬ draw_returned_before_notification componentDidUpdate Contextless.sized.
Proof.
  unfold draw_returned_before_notification. intros H.
  specialize (H [GetContext Contextless.canvas] [] eq_refl).
  discriminate H.
Qed.

(** ** The canvas element *)

Lemma handleMouseMove_frame (this : PartitionComponent) e :
  Method.after (handleMouseMove e this) = this.
Proof.
  rewrite handleMouseMove_unfold.
  unfold handleMouseMove_locals, Method.and_then, Method.this, Method.after.
  destruct (canvasRef this); [|reflexivity].
  destruct (ctx this); [|reflexivity].
  destruct (_ || _); reflexivity.
Qed.

(** No action changes the pixel ratio the constructor stored. *)
Lemma perform_devicePixelRatio (a : Action) (this : PartitionComponent) :
  devicePixelRatio (Method.after (perform a this)) = devicePixelRatio this.
Proof.
  destruct a as [p|r| | |e].
  - reflexivity.
  - reflexivity.
  - now destruct (lifecycle_shape DidMount this (or_introl eq_refl))
      as (? & _ & _ & _ & _ & H & _).
  - now destruct (lifecycle_shape DidUpdate this (or_intror eq_refl))
      as (? & _ & _ & _ & _ & H & _).
  - simpl. unfold Method.and_then, Method.pure.
    pose proof (handleMouseMove_frame this e) as H.
    destruct (handleMouseMove e this) as [[v c] t].
    unfold Method.after in *. simpl in *. now subst.
Qed.

Lemma perform_all_devicePixelRatio (l : list Action) :
  ∀ this,
    devicePixelRatio (Method.after (perform_all l this))
    = devicePixelRatio this.
Proof.
  induction l as [|a l IH]; intros this; simpl; [reflexivity|].
  unfold Method.and_then.
  pose proof (perform_devicePixelRatio a this) as Ha.
  destruct (perform a this) as [[[] c] t].
  pose proof (IH c) as Hl.
  destruct (perform_all l c) as [[[] c'] t'].
  unfold Method.after in *. simpl in *. congruence.
Qed.

(** C7. However a component constructed with pixel ratio [ratio] has been
    driven since, when [render()] returns a canvas its [width] and [height]
    attributes are the container's width and height each multiplied by
    [ratio], and its style is the container's width and height; and
    [render()] returns a canvas as soon as the chart is initialized with
    neither dimension zero. *)
Theorem canvas_backing_size
    (p : PartitionProps) (ratio : number) (history : list Action)
    (element : CanvasProps) :
  let this := Method.after (perform_all history (constructor p ratio)) in
  let d := chartContainerDimensions (props this) in
  render this = Some element →
  attr_width element = width d * ratio
  ∧ attr_height element = height d * ratio
  ∧ style_width element = width d
  ∧ style_height element = height d
  ∧ initialized (props this) = true
  ∧ is_zero (width d) = false ∧ is_zero (height d) = false.
Proof.
  intros this d. unfold render. fold d.
  assert (Hr : devicePixelRatio this = ratio)
    by apply (perform_all_devicePixelRatio history).
  rewrite Hr.
  destruct (initialized (props this)); [|discriminate].
  destruct (is_zero (width d)); [discriminate|].
  destruct (is_zero (height d)); [discriminate|].
  simpl. intros [= <-]. simpl. auto 10.
Qed.

(** Ratio 2.5 and a container of 100 by 50: a backing store of 250 by 125,
    shown at 100 by 50. *)
Lemma canvas_backing_size_witness :
  render Sample.ready
  = Some {| className := "echCanvasRenderer";
            attr_width := 250; attr_height := 125;
            style_width := 100; style_height := 50 |}
  ∧ 250 = 100 * 2.5 ∧ 125 = 50 * 2.5.
Proof.
  pose proof (canvas_backing_size Sample.ready_props 2.5
                [AttachRef (Some Sample.canvas); DidMount]
                {| className := "echCanvasRenderer";
                   attr_width := 250; attr_height := 125;
                   style_width := 100; style_height := 50 |}
                eq_refl) as (Hw & Hh & _).
  split; [reflexivity|]. split; [exact Hw|exact Hh].
Defined.

Lemma render_when_laid_out (this : PartitionComponent) :
  initialized (props this) = true →
  is_zero (width (chartContainerDimensions (props this))) = false →
  is_zero (height (chartContainerDimensions (props this))) = false →
  is_Some (render this).
Proof. intros Hi Hw Hh. unfold render. rewrite Hi, Hw, Hh. simpl. eauto. Qed.

(** ** Projection of the store's state *)

(** C10. For a state of the store that is not initialized, [mapStateToProps]
    returns [DEFAULT_PROPS]: [initialized] false, the null view model as
    geometry, and width, height, left and top all zero.  So both reasons to
    suppress hold at once; a component with these props renders nothing and
    picks nothing. *)
Theorem uninitialized_props_are_defaults
    {GlobalChartState : Type}
    (isInitialized : GlobalChartState → bool)
    (partitionGeometries : GlobalChartState → ShapeViewModel)
    (parentDimensions : GlobalChartState → Dimensions)
    (nullShapeViewModel : ShapeViewModel)
    (state : GlobalChartState) :
  isInitialized state = false →
  let p := mapStateToProps isInitialized partitionGeometries parentDimensions
             nullShapeViewModel state in
  p = DEFAULT_PROPS nullShapeViewModel
  ∧ initialized p = false
  ∧ geometries p = nullShapeViewModel
  ∧ chartContainerDimensions p
    = {| width := 0; height := 0; dim_left := 0; dim_top := 0 |}
  ∧ is_zero (width (chartContainerDimensions p)) = true
  ∧ is_zero (height (chartContainerDimensions p)) = true
  ∧ ∀ this, props this = p →
      render this = None
      ∧ ∀ e, handleMouseMove e this = (None, this, []).
Proof.
  intros Hinit p. unfold p, mapStateToProps. rewrite Hinit. simpl.
  repeat (split; [reflexivity|]).
  intros this Hp. split.
  - unfold render. now rewrite Hp.
  - intros e. apply pick_suppressed_props. now rewrite Hp.
Qed.

Lemma uninitialized_props_are_defaults_witness :
  let p := mapStateToProps (λ s : Sample.store, s.1.1) (λ s, s.1.2) snd
             Sample.null_view_model Sample.starting in
  p = DEFAULT_PROPS Sample.null_view_model
  ∧ initialized p = false
  ∧ geometries p = Sample.null_view_model
  ∧ chartContainerDimensions p
    = {| width := 0; height := 0; dim_left := 0; dim_top := 0 |}
  ∧ is_zero (width (chartContainerDimensions p)) = true
  ∧ is_zero (height (chartContainerDimensions p)) = true
  ∧ ∀ this, props this = p →
      render this = None
      ∧ ∀ e, handleMouseMove e this = (None, this, []).
Proof.
  apply (uninitialized_props_are_defaults (λ s : Sample.store, s.1.1)
           (λ s, s.1.2) snd Sample.null_view_model Sample.starting).
  reflexivity.
Defined.

(** * Further properties *)

(** ** What a mouse move does and does not do *)

Lemma handleMouseMove_calls (this : PartitionComponent) e :
  Method.calls (handleMouseMove e this) = []
  ∨ ∃ canvas x y,
      canvasRef this = Some canvas
      ∧ Method.calls (handleMouseMove e this)
        = [GetBoundingClientRect canvas; PickQuads x y].
Proof.
  rewrite handleMouseMove_unfold.
  unfold handleMouseMove_locals, Method.and_then, Method.this, Method.calls.
  destruct (canvasRef this) as [canvas|]; [|auto].
  destruct (ctx this); [|auto].
  destruct (_ || _); simpl; [auto|].
  right. eauto.
Qed.

(** X1. A mouse move never calls the drawing routine, never sends the
    notification and never asks for a context: it makes no call at all, or
    reads the bounding rectangle of the mounted canvas and then queries the
    geometry once; the component is as before. *)
Theorem mouse_move_only_reads
    (this : PartitionComponent) (e : MouseEvent) :
  let r := handleMouseMove e this in
  Method.after r = this
  ∧ drawn (Method.calls r) = false
  ∧ notified (Method.calls r) = false
  ∧ (Method.calls r = []
     ∨ ∃ canvas x y,
         canvasRef this = Some canvas
         ∧ Method.calls r = [GetBoundingClientRect canvas; PickQuads x y]).
Proof.
  intros r. split; [apply handleMouseMove_frame|].
  pose proof (handleMouseMove_calls this e) as H. fold r in H.
  destruct H as [H|(canvas & x & y & Hc & H)]; rewrite H; simpl; eauto 10.
Qed.

(** X2. Whenever [render()] returns [null], [handleMouseMove] returns
    [undefined] without a call, even when a canvas and a context from an
    earlier render are still held. *)
Theorem nothing_rendered_nothing_picked
    (this : PartitionComponent) (e : MouseEvent) :
  render this = None →
  handleMouseMove e this = (None, this, []).
Proof.
  unfold render. intros H.
  rewrite handleMouseMove_unfold.
  rewrite (handleMouseMove_locals_suppressed this e); [reflexivity|].
  destruct (initialized (props this)); [|auto].
  destruct (is_zero (width _)); [auto|].
  destruct (is_zero (height _)); [auto 6|].
  discriminate H.
Qed.

Lemma nothing_rendered_nothing_picked_witness :
  canvasRef Scenario.collapsed = Some Sample.canvas
  ∧ ctx Scenario.collapsed = Some Sample.context
  ∧ handleMouseMove Sample.at_centre Scenario.collapsed
    = (None, Scenario.collapsed, []).
Proof.
  split; [reflexivity|]. split; [reflexivity|].
  apply (nothing_rendered_nothing_picked Scenario.collapsed Sample.at_centre).
  reflexivity.
Defined.

(** ** The context over updates *)

Lemma set_ctx_same (this : PartitionComponent) :
  set_ctx (ctx this) this = this.
Proof. now destruct this. Qed.

(** X3. With a context held, [componentDidUpdate] does not ask for one
    again: it keeps the context it has, whatever canvas [canvasRef] now
    points to, and when the chart is initialized it draws with that context
    and then notifies. *)
Theorem update_reuses_held_context
    (this : PartitionComponent) (cx : CanvasRenderingContext2D) :
  ctx this = Some cx →
  componentDidUpdate this
  = (tt, this,
     if initialized (props this)
     then [RenderPartitionCanvas2d cx (devicePixelRatio this)
             (spread_geometries (geometries (props this))
                (spread_config (config (geometries (props this)))
                   (width (chartContainerDimensions (props this)))
                   (height (chartContainerDimensions (props this)))));
           OnChartRendered]
     else []).
Proof.
  intros Hx. rewrite componentDidUpdate_unfold. rewrite Hx.
  unfold Method.after, Method.calls. simpl.
  destruct (initialized (props this)); [|reflexivity].
  now rewrite (drawCanvas_with_context this cx Hx).
Qed.

(** The canvas was replaced: the update still draws on the first one. *)
Lemma update_reuses_held_context_witness :
  canvasRef Scenario.recanvased = Some Scenario.later_canvas
  ∧ getContext_2d Scenario.later_canvas = Some Scenario.later_context
  ∧ componentDidUpdate Scenario.recanvased
    = (tt, Scenario.recanvased,
       [RenderPartitionCanvas2d Sample.context 2.5
          (spread_geometries Sample.geometry
             (spread_config (config Sample.geometry) 100 50));
        OnChartRendered]).
Proof.
  split; [reflexivity|]. split; [reflexivity|].
  apply (update_reuses_held_context Scenario.recanvased Sample.context).
  reflexivity.
Defined.

(** X4. With no context held, [componentDidUpdate] does exactly what
    [componentDidMount] does: same calls, same component afterwards. *)
Theorem update_without_context_is_mount (this : PartitionComponent) :
  ctx this = None →
  componentDidUpdate this = componentDidMount this.
Proof.
  intros Hx. rewrite componentDidUpdate_unfold, componentDidMount_unfold.
  now rewrite Hx.
Qed.

Lemma update_without_context_is_mount_witness :
  componentDidUpdate Scenario.attached = componentDidMount Scenario.attached
  ∧ Method.calls (componentDidUpdate Scenario.attached)
    = [GetContext Sample.canvas;
       RenderPartitionCanvas2d Sample.context 2.5
         (spread_geometries Sample.geometry
            (spread_config (config Sample.geometry) 100 50));
       OnChartRendered].
Proof.
  split; [|reflexivity].
  apply (update_without_context_is_mount Scenario.attached). reflexivity.
Defined.

(** ** The snapshot that is drawn *)

Lemma spread_geometries_same (g : ShapeViewModel) :
  spread_geometries g (config g) = g.
Proof. now destruct g. Qed.

(** X5. When the geometry's configuration already declares the container's
    width and height, the drawing routine gets the geometry of the props as
    it is. *)
Theorem drawn_geometry_unchanged_when_sizes_agree
    (this : PartitionComponent) (cx : CanvasRenderingContext2D) :
  let g := geometries (props this) in
  let d := chartContainerDimensions (props this) in
  ctx this = Some cx →
  config g !! "width" = Some (JsNumber (width d)) →
  config g !! "height" = Some (JsNumber (height d)) →
  drawCanvas this
  = (tt, this, [RenderPartitionCanvas2d cx (devicePixelRatio this) g]).
Proof.
  intros g d Hx Hw Hh.
  rewrite (drawCanvas_with_context this cx Hx). fold g d.
  unfold spread_config.
  rewrite (insert_id (config g) "width" _ Hw).
  rewrite (insert_id (config g) "height" _ Hh).
  now rewrite spread_geometries_same.
Qed.

Lemma drawn_geometry_unchanged_when_sizes_agree_witness :
  drawCanvas Scenario.fitted
  = (tt, Scenario.fitted,
     [RenderPartitionCanvas2d Sample.context 1 Scenario.fitted_geometry]).
Proof.
  apply (drawn_geometry_unchanged_when_sizes_agree Scenario.fitted
           Sample.context); reflexivity.
Defined.

(** ** More on the index set *)

Lemma set_add_extends (i : N) (s : list N) : s `prefix_of` set_add i s.
Proof.
  unfold set_add. case_decide; [reflexivity|]. now apply prefix_app_r.
Qed.

Lemma add_all_extends (indices : list N) : ∀ s, s `prefix_of` add_all s indices.
Proof.
  unfold add_all. induction indices as [|i indices IH]; intros s; simpl.
  - reflexivity.
  - etrans; [apply (set_add_extends i)|apply IH].
Qed.

Lemma visit_shape_extends (s : list N) (shape : QuadViewModel) :
  s `prefix_of` visit_shape s shape.
Proof.
  unfold visit_shape. destruct (find _ _); [apply add_all_extends|reflexivity].
Qed.

Lemma foldl_visit_shape_extends (shapes : list QuadViewModel) : ∀ s,
  s `prefix_of` foldl visit_shape s shapes.
Proof.
  induction shapes as [|shape shapes IH]; intros s; simpl; [reflexivity|].
  etrans; [apply (visit_shape_extends s shape)|apply IH].
Qed.

(** X6. The index set only grows while the picked shapes are visited, and
    keeps its order: what it holds after the first shapes of a sequence is a
    prefix of what it holds after all of them. *)
Theorem index_set_grows (first rest : list QuadViewModel) :
  collect_datumIndices first `prefix_of` collect_datumIndices (first ++ rest).
Proof.
  unfold collect_datumIndices. rewrite foldl_app.
  apply foldl_visit_shape_extends.
Qed.

Lemma set_add_present (i : N) (s : list N) : i ∈ s → set_add i s = s.
Proof. intros H. unfold set_add. now rewrite decide_True. Qed.

Lemma add_all_present (indices : list N) : ∀ s,
  (∀ i, i ∈ indices → i ∈ s) → add_all s indices = s.
Proof.
  unfold add_all. induction indices as [|i indices IH]; intros s H; simpl.
  - reflexivity.
  - rewrite set_add_present by (apply H; left).
    apply IH. intros j Hj. apply H. now right.
Qed.

Lemma visit_shape_present (s : list N) (shape : QuadViewModel) :
  (∀ j, j ∈ visit_shape s shape → j ∈ s) → visit_shape s shape = s.
Proof.
  unfold visit_shape. destruct (find _ _) as [entry|]; [|reflexivity].
  intros H. apply add_all_present. intros i Hi.
  apply H, elem_of_add_all. now right.
Qed.

(** X7. A shape that was already visited adds nothing when it is visited
    again: shapes picked more than once leave the index set as picking each
    once does. *)
Theorem repeated_shapes_add_nothing (shapes again : list QuadViewModel) :
  (∀ shape, shape ∈ again → shape ∈ shapes) →
  collect_datumIndices (shapes ++ again) = collect_datumIndices shapes.
Proof.
  intros Hsub. unfold collect_datumIndices. rewrite foldl_app.
  assert (Hin : ∀ j shape, shape ∈ again →
                  j ∈ visit_shape (foldl visit_shape [] shapes) shape →
                  j ∈ foldl visit_shape [] shapes).
  { intros j shape Hshape Hj.
    apply elem_of_visit_shape in Hj as [Hj|(sub & ind & Hr & Hi & Hj)].
    - assumption.
    - apply elem_of_foldl_visit_shape. right.
      exists shape, sub, ind. auto. }
  clear Hsub. revert Hin. generalize (foldl visit_shape [] shapes) as s.
  induction again as [|shape again IH]; intros s Hin; simpl; [reflexivity|].
  rewrite (visit_shape_present s shape).
  - apply IH. intros j sh Hsh. apply Hin. now right.
  - intros j. apply Hin. now left.
Qed.

Lemma repeated_shapes_add_nothing_witness :
  collect_datumIndices
    ([Sample.quad_a; Sample.quad_b] ++ [Sample.quad_b; Sample.quad_a])
  = collect_datumIndices [Sample.quad_a; Sample.quad_b].
Proof.
  apply (repeated_shapes_add_nothing [Sample.quad_a; Sample.quad_b]
           [Sample.quad_b; Sample.quad_a]).
  intros shape H.
  apply elem_of_cons in H as [->|H]; [right; left|].
  apply elem_of_cons in H as [->|H]; [left|].
  now apply elem_of_nil in H.
Defined.

(** X8. When several children of a shape's parent carry the shape's
    [dataName] as key, only the first of them is read: the indices added are
    those of the first matching child, whatever follows it. *)
Theorem first_matching_child_wins
    (s : list N) (shape : QuadViewModel)
    (before rest : list (PrimitiveValue * ArrayNode))
    (key : PrimitiveValue) (subtree : ArrayNode) :
  children (parent shape) = before ++ (key, subtree) :: rest →
  strict_equals key (dataName shape) = true →
  Forall (λ entry, strict_equals entry.1 (dataName shape) = false) before →
  visit_shape s shape = add_all s (default [] (inputIndex subtree)).
Proof.
  intros Hch Hk Hbefore. unfold visit_shape.
  assert (Hfind : find (λ entry, strict_equals entry.1 (dataName shape))
                       (children (parent shape)) = Some (key, subtree)).
  { apply find_first. exists before, rest. auto. }
  now rewrite Hfind.
Qed.

(** The sample root has two children keyed "a"; the second, with row 9, is
    never read. *)
Lemma first_matching_child_wins_witness :
  visit_shape [] Sample.quad_a = add_all [] [1; 2]%N.
Proof.
  apply (first_matching_child_wins [] Sample.quad_a []
           [(PvString "b", Sample.rows_23); (PvNull, Sample.no_rows);
            (PvString "a", mkArrayNode (Some [9]%N) [])]
           (PvString "a") Sample.rows_12).
  - reflexivity.
  - reflexivity.
  - constructor.
Defined.

(** ** Whole histories *)

Lemma perform_all_cons (a : Action) (l : list Action) this :
  Method.calls (perform_all (a :: l) this)
  = Method.calls (perform a this)
    ++ Method.calls (perform_all l (Method.after (perform a this)))
  ∧ Method.after (perform_all (a :: l) this)
    = Method.after (perform_all l (Method.after (perform a this))).
Proof.
  simpl. unfold Method.and_then, Method.calls, Method.after.
  destruct (perform a this) as [[[] c] t]. simpl.
  destruct (perform_all l c) as [[[] c'] t']. auto.
Qed.

Lemma perform_mouse_move (e : MouseEvent) this :
  Method.after (perform (MouseMove e) this) = this
  ∧ Method.calls (perform (MouseMove e) this)
    = Method.calls (handleMouseMove e this).
Proof.
  simpl. unfold Method.and_then, Method.pure.
  pose proof (handleMouseMove_frame this e) as H.
  destruct (handleMouseMove e this) as [[v c] t].
  unfold Method.after, Method.calls in *. simpl in *.
  rewrite app_nil_r. now subst.
Qed.

(** What each action leaves of the component. *)
Lemma perform_frame (a : Action) (this : PartitionComponent) :
  let next := Method.after (perform a this) in
  props next = match a with ReceiveProps p => p | _ => props this end
  ∧ canvasRef next = match a with AttachRef r => r | _ => canvasRef this end
  ∧ ctx next
    = match a with
      | DidMount => canvasRef this ≫= getContext_2d
      | DidUpdate =>
          match ctx this with
          | Some cx => Some cx
          | None => canvasRef this ≫= getContext_2d
          end
      | _ => ctx this
      end.
Proof.
  destruct a as [p|r| | |e]; simpl.
  - auto.
  - auto.
  - rewrite componentDidMount_unfold.
    pose proof (tryCanvasContext_frame this) as H. simpl in H.
    unfold Method.after in *. simpl. tauto.
  - rewrite componentDidUpdate_unfold. simpl.
    destruct (ctx this) as [cx|] eqn:Hx.
    + unfold Method.after. simpl. auto.
    + pose proof (tryCanvasContext_frame this) as H. simpl in H.
      unfold Method.after in *. simpl. tauto.
  - destruct (perform_mouse_move e this) as [H _]. simpl in H.
    now rewrite H.
Qed.

Lemma lifecycle_notifications (a : Action) (this : PartitionComponent) :
  a = DidMount ∨ a = DidUpdate →
  notifications (Method.calls (perform a this))
  = (if initialized (props this) then 1 else 0)%nat.
Proof.
  intros Ha.
  destruct (lifecycle_shape a this Ha)
    as (acq & Hn & _ & _ & _ & _ & Hcalls).
  rewrite Hcalls, notifications_app, (notified_false_notifications _ Hn).
  destruct (initialized (props this)); [|reflexivity].
  pose proof (drawCanvas_calls (Method.after (perform a this))) as [Hdn _].
  now rewrite notifications_app, (notified_false_notifications _ Hdn).
Qed.

Lemma mouse_move_notifications (e : MouseEvent) this :
  notifications (Method.calls (handleMouseMove e this)) = 0%nat.
Proof.
  destruct (handleMouseMove_calls this e) as [H|(? & ? & ? & _ & H)];
    now rewrite H.
Qed.

(** X9. Over any sequence of actions the notification is sent once for each
    [componentDidMount] or [componentDidUpdate] that runs while the props say
    the chart is initialized, and never otherwise: mouse moves, new props and
    ref changes send none. *)
Theorem notifications_count_initialized_steps (history : list Action) :
  ∀ this : PartitionComponent,
    notifications (Method.calls (perform_all history this))
    = initialized_lifecycle_steps (props this) history.
Proof.
  induction history as [|a history IH]; intros this; [reflexivity|].
  destruct (perform_all_cons a history this) as [-> _].
  rewrite notifications_app, IH.
  destruct (perform_frame a this) as (Hp & _ & _). rewrite Hp.
  destruct a as [p|r| | |e]; simpl initialized_lifecycle_steps.
  - reflexivity.
  - reflexivity.
  - now rewrite (lifecycle_notifications DidMount this (or_introl eq_refl)).
  - now rewrite (lifecycle_notifications DidUpdate this (or_intror eq_refl)).
  - destruct (perform_mouse_move e this) as [_ ->].
    now rewrite mouse_move_notifications.
Qed.

Example session_notifications :
  notifications
    (Method.calls (perform_all Scenario.session
                     (constructor Sample.collapsed_props 2.5)))
  = 4%nat.
Proof. reflexivity. Qed.

Lemma tryCanvasContext_unmounted (this : PartitionComponent) :
  canvasRef this = None → ctx this = None →
  tryCanvasContext this = (tt, this, []).
Proof.
  intros Hc Hx. unfold tryCanvasContext, Method.and_then, Method.this.
  rewrite Hc. unfold Method.assign_ctx. rewrite <- Hx.
  now rewrite set_ctx_same.
Qed.

Lemma perform_without_canvas (a : Action) (this : PartitionComponent) :
  attaches_canvas a = false →
  canvasRef this = None → ctx this = None →
  canvasRef (Method.after (perform a this)) = None
  ∧ ctx (Method.after (perform a this)) = None
  ∧ Forall (λ c, c = OnChartRendered) (Method.calls (perform a this)).
Proof.
  intros Ha Hc Hx.
  destruct (perform_frame a this) as (_ & Hc' & Hx').
  rewrite Hc', Hx'. clear Hc' Hx'.
  destruct a as [p|[canvas|]| | |e]; try discriminate Ha; simpl;
    rewrite ?Hc, ?Hx; simpl.
  - auto.
  - auto.
  - split; [reflexivity|]. split; [reflexivity|].
    rewrite componentDidMount_unfold.
    rewrite (tryCanvasContext_unmounted this Hc Hx).
    unfold Method.after, Method.calls. simpl.
    rewrite (drawCanvas_without_context this Hx).
    destruct (initialized (props this)); simpl; auto.
  - split; [reflexivity|]. split; [reflexivity|].
    rewrite componentDidUpdate_unfold. rewrite Hx.
    rewrite (tryCanvasContext_unmounted this Hc Hx).
    unfold Method.after, Method.calls. simpl.
    rewrite (drawCanvas_without_context this Hx).
    destruct (initialized (props this)); simpl; auto.
  - split; [reflexivity|]. split; [reflexivity|].
    unfold Method.and_then, Method.pure.
    rewrite handleMouseMove_unfold.
    rewrite (handleMouseMove_locals_suppressed this e) by auto.
    simpl. constructor.
Qed.

(** X10. As long as no canvas has been put behind [canvasRef] since the
    construction, the component calls nothing but the notification: no
    context is asked for, nothing is drawn, no rectangle is read and no
    spatial query made; and it holds no context at the end. *)
Theorem no_canvas_only_notifications
    (p : PartitionProps) (ratio : number) (history : list Action) :
  Forall (λ a, attaches_canvas a = false) history →
  let r := perform_all history (constructor p ratio) in
  Forall (λ c, c = OnChartRendered) (Method.calls r)
  ∧ ctx (Method.after r) = None.
Proof.
  intros Hall.
  assert (Hgen : ∀ this, canvasRef this = None → ctx this = None →
            Forall (λ c, c = OnChartRendered)
                   (Method.calls (perform_all history this))
            ∧ ctx (Method.after (perform_all history this)) = None).
  { induction Hall as [|a history Ha Hall IH]; intros this Hc Hx.
    - split; [constructor|assumption].
    - destruct (perform_all_cons a history this) as [-> ->].
      destruct (perform_without_canvas a this Ha Hc Hx) as (Hc' & Hx' & Hf).
      destruct (IH _ Hc' Hx') as [Hf' Hx''].
      split; [|assumption]. apply Forall_app. auto. }
  apply Hgen; reflexivity.
Qed.

Lemma no_canvas_only_notifications_witness :
  Method.calls (perform_all Scenario.canvasless
                  (constructor Sample.collapsed_props 2.5))
  = [OnChartRendered; OnChartRendered; OnChartRendered]
  ∧ Forall (λ c, c = OnChartRendered)
      (Method.calls (perform_all Scenario.canvasless
                       (constructor Sample.collapsed_props 2.5)))
  ∧ ctx (Method.after (perform_all Scenario.canvasless
                         (constructor Sample.collapsed_props 2.5))) = None.
Proof.
  split; [reflexivity|].
  apply (no_canvas_only_notifications Sample.collapsed_props 2.5
           Scenario.canvasless).
  repeat constructor.
Defined.

Lemma not_drawn_no_draw (calls : list Call) cx dpr vm :
  drawn calls = false → RenderPartitionCanvas2d cx dpr vm ∈ calls → False.
Proof.
  unfold drawn. induction calls as [|c calls IH]; simpl; intros Hd Hin.
  - now apply elem_of_nil in Hin.
  - apply orb_false_iff in Hd as [Hc Hd].
    apply elem_of_cons in Hin as [<-|Hin]; [discriminate Hc|auto].
Qed.

(** A draw made by one action: with which ratio and which context. *)
Lemma perform_draw (a : Action) (this : PartitionComponent) cx dpr vm :
  RenderPartitionCanvas2d cx dpr vm ∈ Method.calls (perform a this) →
  dpr = devicePixelRatio this
  ∧ ctx (Method.after (perform a this)) = Some cx.
Proof.
  intros Hin.
  assert (Hlife : a = DidMount ∨ a = DidUpdate →
            dpr = devicePixelRatio this
            ∧ ctx (Method.after (perform a this)) = Some cx).
  { intros Ha.
    destruct (lifecycle_shape a this Ha)
      as (acq & _ & Hd & _ & _ & Hr & Hcalls).
    rewrite Hcalls in Hin. clear Hcalls.
    apply elem_of_app in Hin as [Hin|Hin].
    { destruct (not_drawn_no_draw _ _ _ _ Hd Hin). }
    destruct (initialized (props this));
      [|now apply elem_of_nil in Hin].
    apply elem_of_app in Hin as [Hin|Hin].
    - set (next := Method.after (perform a this)) in *.
      destruct (ctx next) as [cx'|] eqn:Hx.
      + rewrite (drawCanvas_with_context next cx' Hx) in Hin.
        apply list_elem_of_singleton in Hin. injection Hin as -> -> _.
        auto.
      + rewrite (drawCanvas_without_context next Hx) in Hin.
        now apply elem_of_nil in Hin.
    - apply list_elem_of_singleton in Hin. discriminate Hin. }
  destruct a as [p|r| | |e]; auto.
  - now apply elem_of_nil in Hin.
  - now apply elem_of_nil in Hin.
  - destruct (perform_mouse_move e this) as [_ Hcalls].
    rewrite Hcalls in Hin.
    destruct (handleMouseMove_calls this e) as [H|(? & ? & ? & _ & H)];
      rewrite H in Hin.
    + now apply elem_of_nil in Hin.
    + apply elem_of_cons in Hin as [Hin|Hin]; [discriminate Hin|].
      apply list_elem_of_singleton in Hin. discriminate Hin.
Qed.

(** Where the context held after an action comes from. *)
Lemma perform_context_origin (a : Action) (this : PartitionComponent) cx :
  ctx (Method.after (perform a this)) = Some cx →
  ctx this = Some cx
  ∨ ∃ canvas, canvasRef this = Some canvas ∧ getContext_2d canvas = Some cx.
Proof.
  destruct (perform_frame a this) as (_ & _ & ->).
  assert (Hacq : canvasRef this ≫= getContext_2d = Some cx →
            ∃ canvas, canvasRef this = Some canvas
                      ∧ getContext_2d canvas = Some cx).
  { destruct (canvasRef this) as [canvas|]; simpl; [eauto|discriminate]. }
  destruct a as [p|r| | |e]; auto.
  destruct (ctx this); auto.
Qed.

Lemma perform_canvas_origin (a : Action) (this : PartitionComponent) canvas :
  canvasRef (Method.after (perform a this)) = Some canvas →
  canvasRef this = Some canvas ∨ a = AttachRef (Some canvas).
Proof.
  destruct (perform_frame a this) as (_ & -> & _).
  destruct a as [p|r| | |e]; auto. intros ->. auto.
Qed.

Lemma draws_in_history (history : list Action) :
  ∀ (this : PartitionComponent) cx dpr vm,
    RenderPartitionCanvas2d cx dpr vm
      ∈ Method.calls (perform_all history this) →
    dpr = devicePixelRatio this
    ∧ (ctx this = Some cx
       ∨ ∃ canvas,
           getContext_2d canvas = Some cx
           ∧ (canvasRef this = Some canvas
              ∨ AttachRef (Some canvas) ∈ history)).
Proof.
  induction history as [|a history IH]; intros this cx dpr vm Hin.
  { now apply elem_of_nil in Hin. }
  destruct (perform_all_cons a history this) as [Hcalls _].
  rewrite Hcalls in Hin. clear Hcalls.
  set (next := Method.after (perform a this)) in *.
  assert (Hctx : ctx next = Some cx →
            ctx this = Some cx
            ∨ ∃ canvas,
                getContext_2d canvas = Some cx
                ∧ (canvasRef this = Some canvas
                   ∨ AttachRef (Some canvas) ∈ a :: history)).
  { intros Hx.
    destruct (perform_context_origin a this cx Hx)
      as [?|(canvas & ? & ?)]; eauto. }
  apply elem_of_app in Hin as [Hin|Hin].
  - destruct (perform_draw a this cx dpr vm Hin) as [-> Hx]. auto.
  - destruct (IH next cx dpr vm Hin) as [-> Horigin].
    split; [apply perform_devicePixelRatio|].
    destruct Horigin as [Hx|(canvas & Hget & [Hc|Hhist])]; [auto| |].
    + right. exists canvas. split; [assumption|].
      destruct (perform_canvas_origin a this canvas Hc) as [?| ->];
        [auto|right; left].
    + right. exists canvas. split; [assumption|]. right. now right.
Qed.

(** X11. Whatever happens to a component after its construction, every call
    to the drawing routine passes the pixel ratio read by the constructor and
    a context that [getContext('2d')] of a canvas attached during that time
    has given. *)
Theorem draws_use_constructor_ratio_and_acquired_context
    (p : PartitionProps) (ratio : number) (history : list Action)
    (cx : CanvasRenderingContext2D) (dpr : number) (vm : ShapeViewModel) :
  RenderPartitionCanvas2d cx dpr vm
    ∈ Method.calls (perform_all history (constructor p ratio)) →
  dpr = ratio
  ∧ ∃ canvas,
      AttachRef (Some canvas) ∈ history
      ∧ getContext_2d canvas = Some cx.
Proof.
  intros Hin.
  destruct (draws_in_history history _ cx dpr vm Hin) as [-> Horigin].
  split; [reflexivity|].
  destruct Horigin as [Hx|(canvas & Hget & [Hc|Hhist])].
  - discriminate Hx.
  - discriminate Hc.
  - eauto.
Qed.

Lemma draws_use_constructor_ratio_and_acquired_context_witness :
  ∃ canvas,
    AttachRef (Some canvas) ∈ Scenario.session
    ∧ getContext_2d canvas = Some Sample.context.
Proof.
  apply (draws_use_constructor_ratio_and_acquired_context
           Sample.collapsed_props 2.5 Scenario.session Sample.context 2.5
           (spread_geometries Sample.geometry
              (spread_config (config Sample.geometry) 100 50))).
  apply (list_elem_of_lookup_2 _ 2). reflexivity.
Defined.

(** ** What is never read *)

(** X12. The container's [left] and [top] are read by no method, and the
    stored pixel ratio is not read by [handleMouseMove]: a pick returns the
    same shapes, builds the same index set and makes the same calls whatever
    these three are, and with the ratio kept [render()] returns the same
    canvas and [drawCanvas] makes the same call. *)
Theorem offsets_and_ratio_not_read
    (this : PartitionComponent) (e : MouseEvent)
    (new_left new_top new_ratio : number) :
  let moved := relocated new_left new_top new_ratio this in
  let shifted := relocated new_left new_top (devicePixelRatio this) this in
  Method.value (handleMouseMove e moved) = Method.value (handleMouseMove e this)
  ∧ Method.calls (handleMouseMove e moved)
    = Method.calls (handleMouseMove e this)
  ∧ Method.value (handleMouseMove_locals e moved)
    = Method.value (handleMouseMove_locals e this)
  ∧ render shifted = render this
  ∧ Method.calls (drawCanvas shifted) = Method.calls (drawCanvas this).
Proof.
  destruct this as [[i g [w h l t]] [canvas|] [cx|] ratio];
    simpl; repeat split; try reflexivity;
    unfold handleMouseMove, handleMouseMove_locals, Method.and_then,
      Method.this, Method.value, Method.calls; simpl;
    destruct (negb i || is_zero w || is_zero h); reflexivity.
Qed.

(** ** From the store to the canvas *)

(** X13. For a component whose props are the projection of a state of the
    store, [render()] returns [null] exactly when the state is not
    initialized or a parent dimension is zero; otherwise the canvas is sized
    by the parent dimensions of that state. *)
Theorem render_of_store_state
    {GlobalChartState : Type}
    (isInitialized : GlobalChartState → bool)
    (partitionGeometries : GlobalChartState → ShapeViewModel)
    (parentDimensions : GlobalChartState → Dimensions)
    (nullShapeViewModel : ShapeViewModel)
    (state : GlobalChartState) (this : PartitionComponent) :
  props this
  = mapStateToProps isInitialized partitionGeometries parentDimensions
      nullShapeViewModel state →
  let d := parentDimensions state in
  render this
  = if negb (isInitialized state) || is_zero (width d) || is_zero (height d)
    then None
    else Some {| className := "echCanvasRenderer";
                 attr_width := width d * devicePixelRatio this;
                 attr_height := height d * devicePixelRatio this;
                 style_width := width d;
                 style_height := height d |}.
Proof.
  intros Hp d. unfold render. rewrite Hp. unfold mapStateToProps.
  destruct (isInitialized state); reflexivity.
Qed.

Lemma render_of_store_state_witness :
  render (constructor
            (mapStateToProps (λ s : Sample.store, s.1.1) (λ s, s.1.2) snd
               Sample.null_view_model Scenario.running) 2.5)
  = Some {| className := "echCanvasRenderer";
            attr_width := 250; attr_height := 125;
            style_width := 100; style_height := 50 |}.
Proof.
  apply (render_of_store_state (λ s : Sample.store, s.1.1) (λ s, s.1.2) snd
           Sample.null_view_model Scenario.running
           (constructor
              (mapStateToProps (λ s : Sample.store, s.1.1) (λ s, s.1.2) snd
                 Sample.null_view_model Scenario.running) 2.5)).
  reflexivity.
Defined.

(** ** Updating again *)

Lemma tryCanvasContext_unfold (this : PartitionComponent) :
  tryCanvasContext this
  = (tt, set_ctx (canvasRef this ≫= getContext_2d) this,
     match canvasRef this with
     | Some canvas => [GetContext canvas]
     | None => []
     end).
Proof.
  unfold tryCanvasContext, Method.and_then, Method.this.
  destruct (canvasRef this); reflexivity.
Qed.

Lemma componentDidUpdate_closed (this : PartitionComponent) :
  componentDidUpdate this
  = (tt,
     match ctx this with
     | Some _ => this
     | None => set_ctx (canvasRef this ≫= getContext_2d) this
     end,
     match ctx this, canvasRef this with
     | None, Some canvas => [GetContext canvas]
     | _, _ => []
     end
     ++ if initialized (props this)
        then Method.calls
               (drawCanvas
                  match ctx this with
                  | Some _ => this
                  | None => set_ctx (canvasRef this ≫= getContext_2d) this
                  end)
             ++ [OnChartRendered]
        else []).
Proof.
  rewrite componentDidUpdate_unfold.
  destruct (ctx this); [reflexivity|].
  rewrite tryCanvasContext_unfold. unfold Method.after, Method.calls. simpl.
  destruct (canvasRef this); reflexivity.
Qed.

(** X14. A second [componentDidUpdate] right after a first leaves the
    component as the first left it, and after any renewed requests for a
    context it makes the calls the first made after its own: the same draw,
    if any, and the same notification. *)
Theorem update_again_same
    (this : PartitionComponent) :
  let first := componentDidUpdate this in
  let second := componentDidUpdate (Method.after first) in
  Method.after second = Method.after first
  ∧ ∃ asked asked_again tail,
      Method.calls first = asked ++ tail
      ∧ Method.calls second = asked_again ++ tail
      ∧ Forall (λ c, ∃ canvas, c = GetContext canvas) asked
      ∧ Forall (λ c, ∃ canvas, c = GetContext canvas) asked_again
      ∧ drawn tail = drawn (Method.calls first)
      ∧ notified tail = notified (Method.calls first).
Proof.
  intros first second. subst second first.
  rewrite (componentDidUpdate_closed this).
  unfold Method.after, Method.calls. cbn [fst snd].
  set (next := match ctx this with
               | Some _ => this
               | None => set_ctx (canvasRef this ≫= getContext_2d) this
               end).
  assert (Hnext : props next = props this ∧ canvasRef next = canvasRef this
                  ∧ (ctx next = None → canvasRef next ≫= getContext_2d = None)).
  { unfold next. destruct (ctx this) as [cx|] eqn:Hx.
    - rewrite Hx. split; [auto|]. split; [auto|]. discriminate.
    - simpl. auto. }
  destruct Hnext as (Hp & Hc & Hnone).
  rewrite (componentDidUpdate_closed next).
  unfold Method.calls. cbn [fst snd].
  assert (Hstay : match ctx next with
                  | Some _ => next
                  | None => set_ctx (canvasRef next ≫= getContext_2d) next
                  end = next).
  { destruct (ctx next) as [cx|] eqn:Hx; [reflexivity|].
    rewrite (Hnone eq_refl), <- Hx. apply set_ctx_same. }
  rewrite Hstay, Hp. split; [reflexivity|].
  assert (Hasked : ∀ c : PartitionComponent,
            Forall (λ c, ∃ canvas, c = GetContext canvas)
              match ctx c, canvasRef c with
              | None, Some canvas => [GetContext canvas]
              | _, _ => []
              end).
  { intros c. destruct (ctx c), (canvasRef c); repeat constructor. eauto. }
  eexists _, _, _. split; [reflexivity|]. split; [reflexivity|].
  split; [apply Hasked|]. split; [apply Hasked|].
  unfold drawn, notified. rewrite !existsb_app.
  destruct (ctx this), (canvasRef this); auto.
Qed.
